(** * PR-Description-Generator: [autofill_description.py]

    A shallow embedding of the script that gathers a pull request's title,
    body, commits and file patches from the hosting API, assembles a prompt,
    sends it to a chat-completion backend and posts the answer as a comment.

    Conventions of the embedding.
    - A Python [str] is the [string] of its UTF-8 encoding: a character
      (code point) outside ASCII takes several elements of the [string], a
      lead byte followed by continuation bytes. A Python [int] is a [Z].
    - [find], [in], [split] and the slices taken at the indices that [find]
      returned are written out below on the elements, with Python's rules
      (the [-1] of [find], clamped slice bounds): the script searches for
      ASCII text and for text that is itself a [str], and there an
      occurrence among the elements is an occurrence among the characters,
      and a slice between two such places holds the same text. Where the
      script counts characters, in
      [len(prompt)] and [prompt[:n]], the count is of code points:
      [char_len] and [head_chars] below.
    - The JSON documents of the hosting API are records carrying the fields
      the script reads. A field the script tests for presence, or that the
      API may send as [null], is an [option].
    - A function that returns values of several Python types ([1] or a
      string, [None] or [0]) returns a sum or an [option].
    - An uncaught Python exception is the [Raise] outcome; the HTTP exchanges
      and the lines printed are recorded, in order, as a list of events.
    - A request always gets a response and a successful response always
      carries well-formed JSON: network errors and parse errors are not
      modelled. The command line and the environment are taken as parsed. *)

From Stdlib Require Import List ZArith QArith Lia Bool Ascii String DecimalString.
Import ListNotations.
Open Scope string_scope.
Open Scope Z_scope.

(** ** Python strings *)

Module PyStr.

Definition nl : string := String (ascii_of_nat 10) EmptyString.

(** The number of elements of [s]: the bound of the indices that [find]
    and [slice] work with. *)
Definition len (s : string) : Z := Z.of_nat (String.length s).

(** A continuation byte of UTF-8, [10xxxxxx]: an element that goes on the
    character begun before it. *)
Definition is_continuation (c : ascii) : bool :=
  match c with
  | Ascii _ _ _ _ _ _ false true => true
  | _ => false
  end.

(** The number of characters of [s]: its elements that begin one. *)
Fixpoint char_count (s : string) : nat :=
  match s with
  | EmptyString => O
  | String c s' =>
      if is_continuation c then char_count s' else S (char_count s')
  end.

(** [len(s)], in characters. *)
Definition char_len (s : string) : Z := Z.of_nat (char_count s).

(** The first [n] characters of [s], each with all its elements. *)
Fixpoint take_chars (n : nat) (s : string) : string :=
  match s with
  | EmptyString => EmptyString
  | String c s' =>
      if is_continuation c then String c (take_chars n s')
      else match n with
           | O => EmptyString
           | S n' => String c (take_chars n' s')
           end
  end.

(** [s[:n]] for [n] that is not negative, in characters. *)
Definition head_chars (s : string) (n : Z) : string := take_chars (Z.to_nat n) s.

(** [s] is empty or begins a character: what every [str] does. *)
Definition starts_char (s : string) : Prop :=
  match s with
  | EmptyString => True
  | String c _ => is_continuation c = false
  end.

(** [str(n)] for an [int]. *)
Definition str_of_int (n : Z) : string := NilZero.string_of_int (Z.to_int n).

(** [s] without its first [n] characters. *)
Fixpoint drop (n : nat) (s : string) : string :=
  match n, s with
  | O, _ => s
  | S n', String _ s' => drop n' s'
  | S _, EmptyString => EmptyString
  end.

(** The scan of [find]: [s] is what is left of the subject, [i] the index of
    its first character in the subject. *)
Fixpoint find_from (sub s : string) (i : nat) : option nat :=
  if String.prefix sub s then Some i
  else match s with
       | EmptyString => None
       | String _ s' => find_from sub s' (S i)
       end.

(** A slice bound or a start index brought into [0 .. len s], as Python does
    for [s[a:b]] and for [s.find(sub, start)]. *)
Definition clamp (s : string) (i : Z) : Z :=
  if i <? 0 then Z.max (i + len s) 0 else Z.min i (len s).

(** [s.find(sub, start)]: the lowest index at or after [start] where [sub]
    occurs, [-1] when there is none. *)
Definition find (s sub : string) (start : Z) : Z :=
  let st := if start <? 0 then Z.max (start + len s) 0 else start in
  if len s <? st then -1
  else match find_from sub (drop (Z.to_nat st) s) (Z.to_nat st) with
       | Some i => Z.of_nat i
       | None => -1
       end.

(** [s[a:b]] *)
Definition slice (s : string) (a b : Z) : string :=
  let a' := clamp s a in
  let b' := clamp s b in
  String.substring (Z.to_nat a') (Z.to_nat (b' - a')) s.

(** [sub in s] *)
Fixpoint contains (sub s : string) : bool :=
  if String.prefix sub s then true
  else match s with
       | EmptyString => false
       | String _ s' => contains sub s'
       end.

(** [s.split(sep)] for a separator of one character. *)
Fixpoint split (sep : ascii) (s : string) : list string :=
  match s with
  | EmptyString => [EmptyString]
  | String c s' =>
      if Ascii.eqb c sep then EmptyString :: split sep s'
      else match split sep s' with
           | [] => [String c EmptyString]
           | w :: ws => String c w :: ws
           end
  end.

(** [x in l] for a list of strings. *)
Definition mem (x : string) (l : list string) : bool :=
  existsb (String.eqb x) l.

(** Where [sub] occurs in [s]: the predicates the properties of [find] and
    [contains] are stated with. *)
Definition occurs_at (sub s : string) (i : nat) : Prop :=
  exists pre post, s = pre ++ sub ++ post /\ String.length pre = i.

Definition occurs (sub s : string) : Prop :=
  exists i, occurs_at sub s i.

Definition first_occurrence_from (sub s : string) (start i : nat) : Prop :=
  (start <= i)%nat /\ occurs_at sub s i /\
  forall j, (start <= j < i)%nat -> ~ occurs_at sub s j.

Definition no_occurrence_from (sub s : string) (start : nat) : Prop :=
  forall j, (start <= j)%nat -> ~ occurs_at sub s j.

End PyStr.

(** ** Data of the hosting API *)

(** [GET .../pulls/{id}]: ["title"], ["body"] (a string or [null]) and
    ["user"]["login"]. *)
Record PullRequest := {
  pr_title : string;
  pr_body : option string;
  pr_user_login : string
}.

(** An entry of [GET .../commits]: ["commit"]["message"]. *)
Record Commit := { commit_message : string }.

(** An entry of [GET .../files]: ["filename"], and ["patch"] when the key is
    there. *)
Record FileChange := {
  filename : string;
  patch : option string
}.

(** An entry of [GET .../comments]: ["body"]. *)
Record Comment := { comment_body : string }.

(** A response of [requests]: its status code and its text read as JSON. *)
Record response (A : Type) := {
  status_code : Z;
  text : A
}.
Arguments status_code {A} _.
Arguments text {A} _.

Definition codes_ok : Z := 200.
Definition codes_created : Z := 201.

(** ** Outcomes, events and the monad of the script *)

Inductive exn :=
| TypeError
| AttributeError
| OpenAIError.

Inductive outcome (A : Type) :=
| Ok (a : A)
| Raise (e : exn).
Arguments Ok {A} _.
Arguments Raise {A} _.

Inductive role := System | User | Assistant.

(** The arguments of [openai.ChatCompletion.create]. *)
Record ChatRequest := {
  chat_model : string;
  chat_messages : list (role * string);
  chat_temperature : Q;
  chat_max_tokens : Z
}.

Inductive request :=
| GetPull
| GetCommits
| GetFiles (page per_page : Z)
| GetComments
| PostComment (body : string).

Inductive event :=
| Http (r : request)
| ChatCompletion (r : ChatRequest)
| Print (line : string)
| PrintComments (label : string) (comments_data : list Comment).

(** What the outside world answers in one run. Each endpoint is asked at
    most once per run (the file list once per page), so an answer is a
    function of the request. [chat_completion] is the text of the first
    choice, or the exception the client raises. *)
Record Host := {
  pull_request_result : response PullRequest;
  pull_commit_result : response (list Commit);
  pull_files_result : Z -> Z -> response (list FileChange);
  comments_result : response (list Comment);
  add_comment_result : string -> response string;
  chat_completion : ChatRequest -> outcome string
}.

(** The command line and the environment, after parsing. *)
Record Config := {
  INPUT_ALLOWED_USERS : string;
  open_ai_model : string;
  max_prompt_tokens : Z;
  model_temperature : Q;
  model_sample_prompt : string;
  model_sample_response : string
}.

Definition M (A : Type) : Type := Host -> outcome A * list event.

Definition ret {A} (a : A) : M A := fun _ => (Ok a, []).

Definition bind {A B} (m : M A) (k : A -> M B) : M B :=
  fun h =>
    match m h with
    | (Ok a, t1) => let (r, t2) := k a h in (r, (t1 ++ t2)%list)
    | (Raise e, t1) => (Raise e, t1)
    end.

Definition raise {A} (e : exn) : M A := fun _ => (Raise e, []).

Definition lift {A} (r : outcome A) : M A := fun _ => (r, []).

Definition emit (e : event) : M unit := fun _ => (Ok tt, [e]).

Definition print (line : string) : M unit := emit (Print line).

Definition ask {A} (f : Host -> A) : M A := fun h => (Ok (f h), []).

Notation "x <- m ;; k" := (bind m (fun x => k))
  (at level 61, m at next level, right associativity).
Notation "m ;;; k" := (bind m (fun _ => k))
  (at level 61, right associativity).

Definition requests_get {A} (r : request) (f : Host -> response A) : M (response A) :=
  emit (Http r) ;;; ask f.

Definition requests_post (body : string) : M (response string) :=
  emit (Http (PostComment body)) ;;; ask (fun h => add_comment_result h body).

(** ** The script *)

Import PyStr.

(** [d[field]] on what [get_pull_request_data] returned: [None] is not
    subscriptable. *)
Definition subscript {A} (pull_request_data : option PullRequest)
    (field : PullRequest -> A) : outcome A :=
  match pull_request_data with
  | None => Raise TypeError
  | Some d => Ok (field d)
  end.

Definition get_pull_request_data : M (option PullRequest) :=
  pull_request_result <- requests_get GetPull pull_request_result ;;
  if negb (status_code pull_request_result =? codes_ok) then
    print ("Request to get pull request data failed: "
           ++ str_of_int (status_code pull_request_result)) ;;;
    ret None
  else
    ret (Some (text pull_request_result)).

Definition get_current_pr_description (pull_request_data : option PullRequest)
    : outcome string :=
  match subscript pull_request_data pr_body with
  | Raise e => Raise e
  | Ok None => Raise AttributeError
  | Ok (Some entire_description) =>
      let description_start_index := find entire_description "# Description" 0 in
      if description_start_index =? -1 then Ok entire_description
      else
        let description_end_index :=
          find entire_description "#" (description_start_index + 1) in
        if description_end_index =? -1 then Ok entire_description
        else Ok (slice entire_description description_start_index description_end_index)
  end.

Definition check_pull_request_author_is_allowed_to_trigger_action
    (pull_request_data : option PullRequest) (allowed_users : list string)
    : M (option Z) :=
  match allowed_users with
  | [] => ret None
  | _ :: _ =>
      pr_author <- lift (subscript pull_request_data pr_user_login) ;;
      if negb (mem pr_author allowed_users) then
        print ("Pull request author " ++ pr_author
               ++ " is not allowed to trigger this action") ;;;
        ret (Some 0)
      else ret None
  end.

Definition get_commit_messages : M (Z + string) :=
  pull_commit_result <- requests_get GetCommits pull_commit_result ;;
  if negb (status_code pull_commit_result =? codes_ok) then
    print ("Request to get list of commits failed with error code: "
           ++ str_of_int (status_code pull_commit_result)) ;;;
    ret (inl 1)
  else
    let pull_commit_data := text pull_commit_result in
    ret (inr (String.concat nl (map commit_message pull_commit_data))).

(** [range(a, b)] *)
Definition range (a b : Z) : list Z :=
  map (fun k => a + Z.of_nat k) (seq 0 (Z.to_nat (b - a))).

(** The [for page_num in ...] loop of [get_pull_request_files], over the
    page numbers still to request. *)
Fixpoint files_loop (pages : list Z) (pull_request_files : list FileChange)
    : M (Z + list FileChange) :=
  match pages with
  | [] => ret (inr pull_request_files)
  | page_num :: pages' =>
      pull_files_result <-
        requests_get (GetFiles page_num 30)
                     (fun h => pull_files_result h page_num 30) ;;
      if negb (status_code pull_files_result =? codes_ok) then
        print ("Request to get list of files failed with error code: "
               ++ str_of_int (status_code pull_files_result)) ;;;
        ret (inl 1)
      else
        let pull_files_chunk := text pull_files_result in
        if Z.of_nat (List.length pull_files_chunk) =? 0 then
          ret (inr pull_request_files)
        else
          files_loop pages' (pull_request_files ++ pull_files_chunk)%list
  end.

Definition get_pull_request_files : M (Z + list FileChange) :=
  files_loop (range 1 11) [].

(** [{commit_messages}] in the f-string: the commit messages, or the [1]
    that [get_commit_messages] returns after a failed request. *)
Definition format_commit_messages (commit_messages : Z + string) : string :=
  match commit_messages with
  | inl n => str_of_int n
  | inr s => s
  end.

Definition prompt_head (pull_request_title current_description : string)
    (commit_messages : Z + string) : string :=
  nl ++ "Please rewrite the current pull request description focusing on the motivation behind the changes contained in the pull request and why they improve the project. Go straight to the point." ++ nl
  ++ "The title of the pull request is: " ++ pull_request_title ++ " " ++ nl ++ nl
  ++ "The current description is: " ++ nl ++ " " ++ current_description ++ " " ++ nl ++ nl
  ++ "This pull request contains the following commits (use them to create a better description): " ++ nl ++ " "
  ++ format_commit_messages commit_messages ++ nl ++ nl
  ++ "And the following changes took place: " ++ nl ++ nl.

(** One turn of the loop of [construct_prompt]. *)
Definition prompt_step (prompt : string) (pull_request_file : FileChange) : string :=
  match patch pull_request_file with
  | None => prompt
  | Some patch =>
      prompt ++ "Changes in file " ++ filename pull_request_file ++ ": " ++ nl
             ++ patch ++ nl
  end.

Definition construct_prompt (pull_request_title current_description : string)
    (commit_messages : Z + string) (pull_request_files : Z + list FileChange)
    : outcome string :=
  let prompt := prompt_head pull_request_title current_description commit_messages in
  match pull_request_files with
  | inl _ => Raise TypeError
  | inr files => Ok (fold_left prompt_step files prompt)
  end.

(** [len(prompt)] and [prompt[:max_allowed_characters]] count characters
    (code points), not the elements of the encoding. *)
Definition trim_prompt (prompt : string) : string :=
  let max_allowed_tokens := 2048 in
  let characters_per_token := 4 in
  let max_allowed_characters := max_allowed_tokens * characters_per_token in
  if char_len prompt >? max_allowed_characters
  then head_chars prompt max_allowed_characters
  else prompt.

(** The API key is set on the client before the call; it is no part of the
    request. *)
Definition send_prompt_to_openai (prompt open_ai_model model_sample_prompt
    model_sample_response : string) (model_temperature : Q) (max_prompt_tokens : Z)
    : M string :=
  let r := {| chat_model := open_ai_model;
              chat_messages :=
                [ (System, "You are a helpful assistant who writes pull request descriptions");
                  (User, model_sample_prompt);
                  (Assistant, model_sample_response);
                  (User, prompt) ];
              chat_temperature := model_temperature;
              chat_max_tokens := max_prompt_tokens |} in
  emit (ChatCompletion r) ;;;
  (fun h => (chat_completion h r, [])).

Definition add_title_to_description (autogenerated_title description : string) : string :=
  autogenerated_title ++ nl ++ nl ++ description.

Definition write_description_as_comment (generated_pr_description : string)
    : M (option Z) :=
  add_comment_result <- requests_post generated_pr_description ;;
  if negb (status_code add_comment_result =? codes_created) then
    print ("Request to add comment to pull request failed: "
           ++ str_of_int (status_code add_comment_result)) ;;;
    print ("Response: " ++ text add_comment_result) ;;;
    ret (Some 1)
  else ret None.

(** The [for comment in comments_data] loop. *)
Fixpoint comments_loop (autogenerated_title : string) (comments_data : list Comment)
    : M (option Z) :=
  match comments_data with
  | [] => ret None
  | comment :: comments' =>
      if contains autogenerated_title (comment_body comment) then
        print "Pull request description has already been autogenerated" ;;;
        ret (Some 1)
      else comments_loop autogenerated_title comments'
  end.

Definition check_if_description_has_already_been_autogenerated
    (autogenerated_title : string) : M (option Z) :=
  comments_result <- requests_get GetComments comments_result ;;
  if negb (status_code comments_result =? codes_ok) then
    print ("Request to get list of comments failed with error code: "
           ++ str_of_int (status_code comments_result)) ;;;
    ret (Some 1)
  else
    let comments_data := text comments_result in
    emit (PrintComments "comments_data" comments_data) ;;;
    comments_loop autogenerated_title comments_data.

Definition autogenerated_title : string := "# Auto-generated description:".

(** [allowed_users] as [main] computes it: the empty string of an unset or
    empty variable (here the empty list, both are false in a condition), or
    the variable split at commas. *)
Definition allowed_users_of (env : string) : list string :=
  if String.eqb env "" then [] else split "," env.

Definition main (cfg : Config) : M unit :=
  let allowed_users := allowed_users_of (INPUT_ALLOWED_USERS cfg) in
  pull_request_data <- get_pull_request_data ;;
  check_pull_request_author_is_allowed_to_trigger_action pull_request_data allowed_users ;;;
  check_if_description_has_already_been_autogenerated autogenerated_title ;;;
  pull_request_title <- lift (subscript pull_request_data pr_title) ;;
  current_description <- lift (get_current_pr_description pull_request_data) ;;
  commit_messages <- get_commit_messages ;;
  pull_request_files <- get_pull_request_files ;;
  prompt <- lift (construct_prompt pull_request_title current_description
                                   commit_messages pull_request_files) ;;
  let prompt := trim_prompt prompt in
  generated_pr_description <-
    send_prompt_to_openai prompt (open_ai_model cfg) (model_sample_prompt cfg)
      (model_sample_response cfg) (model_temperature cfg) (max_prompt_tokens cfg) ;;
  let generated_pr_description :=
    add_title_to_description autogenerated_title generated_pr_description in
  print ("Generated pull request description: '" ++ generated_pr_description ++ "'") ;;;
  write_description_as_comment generated_pr_description ;;;
  ret tt.

(** [sys.exit(main())]: [main] returns [None], which exits with status 0; an
    uncaught exception ends the process with status 1. *)
Definition exit_status (r : outcome unit) : Z :=
  match r with
  | Ok _ => 0
  | Raise _ => 1
  end.

Definition run (cfg : Config) (h : Host) : Z * list event :=
  let (r, t) := main cfg h in (exit_status r, t).

(** ** What a run did *)

Definition is_generation (e : event) : bool :=
  match e with ChatCompletion _ => true | _ => false end.

Definition is_publish (e : event) : bool :=
  match e with Http (PostComment _) => true | _ => false end.

Definition generation_calls (t : list event) : list event := filter is_generation t.
Definition publish_calls (t : list event) : list event := filter is_publish t.

(** The file-change entries whose patches reach the prompt, and the block
    of text one of them adds. *)
Definition carries_patch (f : FileChange) : bool :=
  match patch f with Some _ => true | None => false end.

Definition block_of (f : FileChange) : string :=
  match patch f with
  | Some p => "Changes in file " ++ filename f ++ ": " ++ nl ++ p ++ nl
  | None => EmptyString
  end.

Definition join_all (l : list string) : string := fold_right String.append EmptyString l.

(** The pages at the head of a listing that hold at least one entry. *)
Fixpoint nonempty_prefix {A} (chunks : list (list A)) : list (list A) :=
  match chunks with
  | [] => []
  | [] :: _ => []
  | c :: chunks' => c :: nonempty_prefix chunks'
  end.

(** Python's truth value of what the checks return ([None], [0] or [1]). *)
Definition truthy (v : option Z) : bool :=
  match v with
  | None => false
  | Some n => negb (n =? 0)
  end.

(** ** Vocabulary of the properties and sample runs *)

Definition pr_with_body (body : option string) : PullRequest :=
  {| pr_title := "Enable X"; pr_body := body; pr_user_login := "octocat" |}.

(** [n] copies of [s]. *)
Fixpoint replicate (n : nat) (s : string) : string :=
  match n with
  | O => EmptyString
  | S n' => s ++ replicate n' s
  end.

(** 5000 times the letter e with an acute accent (U+00E9, the bytes 195 and
    169): 5000 characters in 10000 elements. *)
Definition accented_prompt : string :=
  replicate (Z.to_nat 5000)
    (String (ascii_of_nat 195) (String (ascii_of_nat 169) EmptyString)).

Definition long_prompt : string :=
  string_of_list_ascii (repeat "x"%char (Z.to_nat 9000)).

Definition two_files : list FileChange :=
  [ {| filename := "logo.png"; patch := None |};
    {| filename := "a.yml"; patch := Some "+line" |} ].

Definition ok_response {A} (a : A) : response A :=
  {| status_code := 200; text := a |}.

Definition sample_config : Config :=
  {| INPUT_ALLOWED_USERS := "";
     open_ai_model := "gpt-3.5-turbo";
     max_prompt_tokens := 1000;
     model_temperature := (6 # 10)%Q;
     model_sample_prompt := "sample prompt";
     model_sample_response := "sample response" |}.

(** A host on which every request succeeds: the pull request of the
    specification's end-to-end example, [pages] as the listing of file
    changes and [comments] already on the pull request. *)
Definition sample_host (author : string) (pages : Z -> list FileChange)
    (comments : list Comment) : Host :=
  {| pull_request_result :=
       ok_response {| pr_title := "Enable X"; pr_body := Some ""; pr_user_login := author |};
     pull_commit_result := ok_response [ {| commit_message := "add X" |} ];
     pull_files_result := fun page _ => ok_response (pages page);
     comments_result := ok_response comments;
     add_comment_result := fun _ => {| status_code := 201; text := "" |};
     chat_completion := fun _ => Ok "GENERATED" |}.

Definition one_page (page : Z) : list FileChange :=
  if page =? 1 then [ {| filename := "a.yml"; patch := Some "+line" |} ] else [].

Definition two_full_pages (page : Z) : list FileChange :=
  if page <=? 2 then repeat {| filename := "a.yml"; patch := Some "+line" |} 30 else [].

(** A stretch of a run with no generation call and no comment posted. *)
Definition quiet (t : list event) : Prop :=
  publish_calls t = [] /\ generation_calls t = [].

(** What a run may have generated and published: nothing published, or one
    generation call and one comment, made of the title and the answer. *)
Definition at_most_one_comment (h : Host) (t : list event) : Prop :=
  publish_calls t = [] \/
  exists r g,
    chat_completion h r = Ok g /\
    generation_calls t = [ChatCompletion r] /\
    publish_calls t = [Http (PostComment (add_title_to_description autogenerated_title g))].

Definition earlier_comment : Comment :=
  {| comment_body := "# Auto-generated description:" ++ nl ++ nl ++ "an earlier description" |}.

Definition restricted_config : Config :=
  {| INPUT_ALLOWED_USERS := "alice,bob";
     open_ai_model := "gpt-3.5-turbo";
     max_prompt_tokens := 1000;
     model_temperature := (6 # 10)%Q;
     model_sample_prompt := "sample prompt";
     model_sample_response := "sample response" |}.

(** The host of [sample_host] with the status of the commits request and of
    the comment creation chosen. *)
Definition host_with_statuses (commits_status post_status : Z) : Host :=
  {| pull_request_result :=
       ok_response {| pr_title := "Enable X"; pr_body := Some ""; pr_user_login := "octocat" |};
     pull_commit_result :=
       {| status_code := commits_status; text := [ {| commit_message := "add X" |} ] |};
     pull_files_result := fun page _ => ok_response (one_page page);
     comments_result := ok_response [];
     add_comment_result := fun _ => {| status_code := post_status; text := "Forbidden" |};
     chat_completion := fun _ => Ok "GENERATED" |}.

(** The request [send_prompt_to_openai] makes for [prompt] under [cfg]. *)
Definition chat_request (cfg : Config) (prompt : string) : ChatRequest :=
  {| chat_model := open_ai_model cfg;
     chat_messages :=
       [ (System, "You are a helpful assistant who writes pull request descriptions");
         (User, model_sample_prompt cfg);
         (Assistant, model_sample_response cfg);
         (User, prompt) ];
     chat_temperature := model_temperature cfg;
     chat_max_tokens := max_prompt_tokens cfg |}.

(** What [write_description_as_comment] prints once the request is answered:
    nothing when the comment was created. *)
Definition post_report (h : Host) (body : string) : list event :=
  if status_code (add_comment_result h body) =? codes_created then []
  else [ Print ("Request to add comment to pull request failed: "
                ++ str_of_int (status_code (add_comment_result h body)));
         Print ("Response: " ++ text (add_comment_result h body)) ].

(** The prompt of the run on [sample_host] with the listing [one_page]. *)
Definition sample_prompt : string :=
  prompt_head "Enable X" "" (inr "add X")
  ++ "Changes in file a.yml: " ++ nl ++ "+line" ++ nl.

(** [sample_host] with a generation backend that raises. *)
Definition host_without_backend : Host :=
  {| pull_request_result :=
       ok_response {| pr_title := "Enable X"; pr_body := Some ""; pr_user_login := "octocat" |};
     pull_commit_result := ok_response [ {| commit_message := "add X" |} ];
     pull_files_result := fun page _ => ok_response (one_page page);
     comments_result := ok_response [];
     add_comment_result := fun _ => {| status_code := 201; text := "" |};
     chat_completion := fun _ => Raise OpenAIError |}.

(** What a run that reaches the generation call was fed: the pull request,
    the description taken from its body, the commit messages (or the [1] of
    a failed request), the file changes and the prompt made of them. *)
Definition run_inputs (h : Host) (pr : PullRequest) (description : string)
    (commits : Z + string) (files : list FileChange) (p : string) : Prop :=
  fst (get_pull_request_data h) = Ok (Some pr) /\
  get_current_pr_description (Some pr) = Ok description /\
  fst (get_commit_messages h) = Ok commits /\
  fst (get_pull_request_files h) = Ok (inr files) /\
  construct_prompt (pr_title pr) description commits (inr files) = Ok p.

(** The five ways a run of [main] ends. Before the generation call: the pull
    request was not fetched; its body has no description to take; the file
    changes were not fetched. Then: the generation call raises; or it
    answers, and the description is printed and posted. *)
Inductive run_shape (cfg : Config) (h : Host) : outcome unit * list event -> Prop :=
| no_pull_request (pre : list event) :
    quiet pre ->
    fst (get_pull_request_data h) = Ok None ->
    run_shape cfg h (Raise TypeError, pre)
| no_description (pr : PullRequest) (e : exn) (pre : list event) :
    quiet pre ->
    fst (get_pull_request_data h) = Ok (Some pr) ->
    get_current_pr_description (Some pr) = Raise e ->
    run_shape cfg h (Raise e, pre)
| no_files (pr : PullRequest) (description : string) (n : Z) (pre : list event) :
    quiet pre ->
    fst (get_pull_request_data h) = Ok (Some pr) ->
    get_current_pr_description (Some pr) = Ok description ->
    fst (get_pull_request_files h) = Ok (inl n) ->
    run_shape cfg h (Raise TypeError, pre)
| generation_failed (pr : PullRequest) (description : string) (commits : Z + string)
    (files : list FileChange) (p : string) (e : exn) (pre : list event) :
    quiet pre ->
    run_inputs h pr description commits files p ->
    chat_completion h (chat_request cfg (trim_prompt p)) = Raise e ->
    run_shape cfg h
      (Raise e, (pre ++ [ChatCompletion (chat_request cfg (trim_prompt p))])%list)
| posted (pr : PullRequest) (description : string) (commits : Z + string)
    (files : list FileChange) (p : string) (g : string) (pre : list event) :
    quiet pre ->
    run_inputs h pr description commits files p ->
    chat_completion h (chat_request cfg (trim_prompt p)) = Ok g ->
    run_shape cfg h
      (Ok tt,
       (pre ++ [ ChatCompletion (chat_request cfg (trim_prompt p));
                 Print ("Generated pull request description: '"
                        ++ add_title_to_description autogenerated_title g ++ "'");
                 Http (PostComment (add_title_to_description autogenerated_title g)) ]
            ++ post_report h (add_title_to_description autogenerated_title g))%list).

Definition host_failing_on_page_2 : Host :=
  {| pull_request_result :=
       ok_response {| pr_title := "Enable X"; pr_body := Some ""; pr_user_login := "octocat" |};
     pull_commit_result := ok_response [ {| commit_message := "add X" |} ];
     pull_files_result :=
       fun page _ => {| status_code := if page =? 2 then 502 else 200;
                        text := two_full_pages page |};
     comments_result := ok_response [];
     add_comment_result := fun _ => {| status_code := 201; text := "" |};
     chat_completion := fun _ => Ok "GENERATED" |}.

(** [sample_host] with the status and the body of its pull request chosen. *)
Definition host_with_pull_request (status : Z) (body : option string) : Host :=
  {| pull_request_result :=
       {| status_code := status;
          text := {| pr_title := "Enable X"; pr_body := body; pr_user_login := "octocat" |} |};
     pull_commit_result := ok_response [ {| commit_message := "add X" |} ];
     pull_files_result := fun page _ => ok_response (one_page page);
     comments_result := ok_response [];
     add_comment_result := fun _ => {| status_code := 201; text := "" |};
     chat_completion := fun _ => Ok "GENERATED" |}.

Definition large_file : FileChange :=
  {| filename := "big.txt"; patch := Some long_prompt |}.

(** The HTTP requests of a run, in order. *)
Definition requests_of (t : list event) : list request :=
  flat_map (fun e => match e with Http r => [r] | _ => [] end) t.

(** * Properties *)

(** ** Python strings *)

Module PyStrFacts.

Lemma length_app (a b : string) :
  String.length (a ++ b) = (String.length a + String.length b)%nat.
Proof. induction a as [|c a IH]; simpl; [reflexivity | now rewrite IH]. Qed.

Lemma app_assoc (a b c : string) : (a ++ b) ++ c = a ++ b ++ c.
Proof. induction a as [|x a IH]; simpl; [reflexivity | now rewrite IH]. Qed.

Lemma app_empty_r (a : string) : a ++ "" = a.
Proof. induction a as [|x a IH]; simpl; [reflexivity | now rewrite IH]. Qed.

Lemma length_zero (a : string) : String.length a = 0%nat -> a = "".
Proof. destruct a; simpl; [reflexivity | discriminate]. Qed.

Lemma prefix_iff (sub s : string) :
  String.prefix sub s = true <-> exists post, s = sub ++ post.
Proof.
  revert s. induction sub as [|a sub IH]; intros s; simpl.
  - destruct s; split; intros _; try reflexivity; eexists; reflexivity.
  - destruct s as [|b s]; simpl.
    + split; [discriminate | intros [post H]; discriminate].
    + destruct (ascii_dec a b) as [->|Hab].
      * rewrite IH. split; intros [post H]; exists post; congruence.
      * split; [discriminate | intros [post H]; congruence].
Qed.

Lemma occurs_at_0 (sub s : string) :
  occurs_at sub s 0 <-> String.prefix sub s = true.
Proof.
  rewrite prefix_iff. split.
  - intros (pre & post & -> & Hl). apply length_zero in Hl. subst pre.
    exists post. reflexivity.
  - intros [post ->]. exists "", post. split; reflexivity.
Qed.

Lemma occurs_at_S (sub : string) (c : ascii) (s : string) (i : nat) :
  occurs_at sub (String c s) (S i) <-> occurs_at sub s i.
Proof.
  split.
  - intros (pre & post & H & Hl). destruct pre as [|x pre]; [discriminate|].
    simpl in H, Hl. exists pre, post. split; congruence.
  - intros (pre & post & -> & Hl). exists (String c pre), post.
    split; simpl; congruence.
Qed.

Lemma occurs_at_bound (sub s : string) (i : nat) :
  occurs_at sub s i -> (i + String.length sub <= String.length s)%nat.
Proof.
  intros (pre & post & -> & <-). rewrite !length_app. lia.
Qed.

Lemma find_from_eq (sub s : string) (i : nat) :
  find_from sub s i =
  if String.prefix sub s then Some i
  else match s with
       | EmptyString => None
       | String _ s' => find_from sub s' (S i)
       end.
Proof. destruct s; reflexivity. Qed.

Lemma contains_eq (sub s : string) :
  contains sub s =
  if String.prefix sub s then true
  else match s with
       | EmptyString => false
       | String _ s' => contains sub s'
       end.
Proof. destruct s; reflexivity. Qed.

Lemma find_from_some (sub s : string) (i k : nat) :
  find_from sub s i = Some k ->
  exists m, k = (i + m)%nat /\ occurs_at sub s m /\
            forall j, (j < m)%nat -> ~ occurs_at sub s j.
Proof.
  revert i. induction s as [|c s IH]; intros i; rewrite find_from_eq.
  - destruct (String.prefix sub "") eqn:E; [|discriminate].
    intros [= <-]. exists 0%nat. rewrite occurs_at_0.
    repeat split; [lia | assumption | lia].
  - destruct (String.prefix sub (String c s)) eqn:E.
    + intros [= <-]. exists 0%nat. rewrite occurs_at_0.
      repeat split; [lia | assumption | lia].
    + intros H. apply IH in H. destruct H as (m & -> & Hm & Hmin).
      exists (S m). rewrite occurs_at_S. repeat split; [lia | assumption |].
      intros [|j] Hj.
      * rewrite occurs_at_0. congruence.
      * rewrite occurs_at_S. apply Hmin. lia.
Qed.

Lemma find_from_none (sub s : string) (i : nat) :
  find_from sub s i = None -> forall j, ~ occurs_at sub s j.
Proof.
  revert i. induction s as [|c s IH]; intros i; rewrite find_from_eq.
  - destruct (String.prefix sub "") eqn:E; [discriminate|].
    intros _ j Hj. pose proof (occurs_at_bound _ _ _ Hj) as Hb. simpl in Hb.
    assert (j = 0%nat) by lia. subst j. apply occurs_at_0 in Hj. congruence.
  - destruct (String.prefix sub (String c s)) eqn:E; [discriminate|].
    intros H [|j].
    + rewrite occurs_at_0. congruence.
    + rewrite occurs_at_S. eapply IH, H.
Qed.

Lemma occurs_at_drop (sub s : string) (n m : nat) :
  (n <= String.length s)%nat ->
  occurs_at sub (drop n s) m <-> occurs_at sub s (n + m).
Proof.
  revert s. induction n as [|n IH]; intros s Hn; simpl.
  - destruct s; reflexivity.
  - destruct s as [|c s]; simpl in Hn; [lia|].
    rewrite occurs_at_S. apply IH. lia.
Qed.

(** [find] from a start index that is not negative: what it returns when it
    finds an occurrence, and when it returns [-1]. *)
Lemma find_found (s sub : string) (start : nat) (i : nat) :
  find s sub (Z.of_nat start) = Z.of_nat i ->
  first_occurrence_from sub s start i.
Proof.
  unfold find, len.
  destruct (Z.of_nat start <? 0) eqn:E0; [apply Z.ltb_lt in E0; lia|].
  destruct (Z.of_nat (String.length s) <? Z.of_nat start) eqn:E1; [lia|].
  apply Z.ltb_ge in E1. rewrite Nat2Z.id.
  destruct (find_from sub (drop start s) start) as [k|] eqn:E; [|lia].
  intros Hk. apply Nat2Z.inj in Hk. subst k.
  apply find_from_some in E. destruct E as (m & -> & Hm & Hmin).
  repeat split.
  - lia.
  - apply occurs_at_drop; [lia | assumption].
  - intros j Hj Hocc. apply (Hmin (j - start)%nat); [lia|].
    apply occurs_at_drop; [lia|]. replace (start + (j - start))%nat with j by lia.
    assumption.
Qed.

Lemma find_not_found (s sub : string) (start : nat) :
  find s sub (Z.of_nat start) = -1 ->
  no_occurrence_from sub s start.
Proof.
  unfold find, len.
  destruct (Z.of_nat start <? 0) eqn:E0; [apply Z.ltb_lt in E0; lia|].
  destruct (Z.of_nat (String.length s) <? Z.of_nat start) eqn:E1.
  - apply Z.ltb_lt in E1. intros _ j Hj Hocc.
    apply occurs_at_bound in Hocc. lia.
  - apply Z.ltb_ge in E1. rewrite Nat2Z.id.
    destruct (find_from sub (drop start s) start) as [k|] eqn:E; [lia|].
    intros _ j Hj Hocc.
    apply (find_from_none _ _ _ E (j - start)%nat).
    apply occurs_at_drop; [lia|]. replace (start + (j - start))%nat with j by lia.
    assumption.
Qed.

Lemma find_range (s sub : string) (start : nat) :
  find s sub (Z.of_nat start) = -1 \/
  exists i, find s sub (Z.of_nat start) = Z.of_nat i.
Proof.
  unfold find.
  destruct (Z.of_nat start <? 0); destruct (len s <? _); auto;
    destruct (find_from _ _ _); eauto.
Qed.

Lemma first_occurrence_unique (sub s : string) (start i j : nat) :
  first_occurrence_from sub s start i ->
  first_occurrence_from sub s start j -> i = j.
Proof.
  intros (Hi & Oi & Mi) (Hj & Oj & Mj).
  destruct (Nat.lt_trichotomy i j) as [H|[H|H]]; [|assumption|].
  - exfalso. apply (Mj i); [lia | assumption].
  - exfalso. apply (Mi j); [lia | assumption].
Qed.

Lemma find_first (s sub : string) (start i : nat) :
  first_occurrence_from sub s start i ->
  find s sub (Z.of_nat start) = Z.of_nat i.
Proof.
  intros H. destruct (find_range s sub start) as [E|[k E]].
  - apply find_not_found in E. destruct H as (Hi & Oi & _).
    exfalso. apply (E i Hi Oi).
  - rewrite E. f_equal. apply find_found in E.
    eapply first_occurrence_unique; eassumption.
Qed.

Lemma find_none (s sub : string) (start : nat) :
  no_occurrence_from sub s start ->
  find s sub (Z.of_nat start) = -1.
Proof.
  intros H. destruct (find_range s sub start) as [E|[k E]]; [assumption|].
  apply find_found in E. destruct E as (Hk & Ok & _).
  exfalso. apply (H k Hk Ok).
Qed.

Lemma contains_iff (sub s : string) :
  contains sub s = true <-> occurs sub s.
Proof.
  induction s as [|c s IH]; rewrite contains_eq.
  - destruct (String.prefix sub "") eqn:E.
    + split; [|reflexivity]. intros _. exists 0%nat. now apply occurs_at_0.
    + split; [discriminate|]. intros [j Hj].
      pose proof (occurs_at_bound _ _ _ Hj) as Hb. simpl in Hb.
      assert (j = 0%nat) by lia. subst j. apply occurs_at_0 in Hj. congruence.
  - destruct (String.prefix sub (String c s)) eqn:E.
    + split; [|reflexivity]. intros _. exists 0%nat. now apply occurs_at_0.
    + rewrite IH. split.
      * intros [j Hj]. exists (S j). now apply occurs_at_S.
      * intros [[|j] Hj].
        -- apply occurs_at_0 in Hj. congruence.
        -- exists j. now apply occurs_at_S in Hj.
Qed.

End PyStrFacts.

(** ** Slices *)

Module SliceFacts.
Import PyStrFacts.

Lemma substring_drop (n m : nat) (s : string) :
  String.substring n m s = String.substring 0 m (drop n s).
Proof.
  revert s. induction n as [|n IH]; intros s.
  - destruct s; reflexivity.
  - destruct s as [|c s]; simpl.
    + destruct m; reflexivity.
    + apply IH.
Qed.

Lemma substring_0_length (m : nat) (s : string) :
  String.length (String.substring 0 m s) = Nat.min m (String.length s).
Proof.
  revert s. induction m as [|m IH]; intros s.
  - destruct s; reflexivity.
  - destruct s as [|c s]; simpl; [reflexivity | now rewrite IH].
Qed.

Lemma substring_0_drop (m : nat) (s : string) :
  s = String.substring 0 m s ++ drop m s.
Proof.
  revert s. induction m as [|m IH]; intros s.
  - destruct s; reflexivity.
  - destruct s as [|c s]; simpl; [reflexivity | now rewrite <- IH].
Qed.

Lemma substring_0_all (m : nat) (s : string) :
  (String.length s <= m)%nat -> String.substring 0 m s = s.
Proof.
  revert s. induction m as [|m IH]; intros s Hs.
  - destruct s; simpl in *; [reflexivity | lia].
  - destruct s as [|c s]; simpl in *; [reflexivity | rewrite IH; [reflexivity | lia]].
Qed.

Lemma slice_inside (s : string) (a b : nat) :
  (a <= b <= String.length s)%nat ->
  slice s (Z.of_nat a) (Z.of_nat b) = String.substring a (b - a) s.
Proof.
  intros H. unfold slice, clamp, len.
  destruct (Z.of_nat a <? 0) eqn:Ea; [apply Z.ltb_lt in Ea; lia|].
  destruct (Z.of_nat b <? 0) eqn:Eb; [apply Z.ltb_lt in Eb; lia|].
  rewrite !Z.min_l by lia. rewrite <- Nat2Z.inj_sub by lia.
  now rewrite !Nat2Z.id.
Qed.

(** [s[:m]] *)
Lemma slice_head (s : string) (m : Z) :
  0 <= m ->
  slice s 0 m = String.substring 0 (Z.to_nat (Z.min m (len s))) s.
Proof.
  intros H. unfold slice, clamp.
  destruct (m <? 0) eqn:Em; [apply Z.ltb_lt in Em; lia|].
  change (0 <? 0) with false. cbv iota.
  rewrite (Z.min_l 0) by (unfold len; lia).
  now rewrite Z.sub_0_r.
Qed.

End SliceFacts.

(** ** The description section of the body *)

(** C4, as amended. For every body string: when ["# Description"] occurs in
    it, first at index [i], and a ['#'] occurs after index [i], first at
    index [j], [get_current_pr_description] returns the [j - i] characters
    of the body that start at [i]; when the marker occurs but no ['#']
    follows index [i], it returns the whole body; when the marker does not
    occur, it returns the whole body. *)
Theorem get_current_pr_description_sections (pr : PullRequest) (body : string) :
  pr_body pr = Some body ->
  (forall i j,
      first_occurrence_from "# Description" body 0 i ->
      first_occurrence_from "#" body (S i) j ->
      get_current_pr_description (Some pr) = Ok (String.substring i (j - i) body)) /\
  (forall i,
      first_occurrence_from "# Description" body 0 i ->
      no_occurrence_from "#" body (S i) ->
      get_current_pr_description (Some pr) = Ok body) /\
  (no_occurrence_from "# Description" body 0 ->
      get_current_pr_description (Some pr) = Ok body).
Proof.
  intros Hb. unfold get_current_pr_description, subscript. rewrite Hb.
  repeat split.
  - intros i j Hi Hj.
    pose proof Hj as (Hij & Oj & _). apply PyStrFacts.occurs_at_bound in Oj.
    apply (PyStrFacts.find_first body "# Description" 0 i) in Hi.
    apply (PyStrFacts.find_first body "#" (S i) j) in Hj.
    change (Z.of_nat 0) with 0 in Hi. rewrite Hi.
    replace (Z.of_nat i + 1) with (Z.of_nat (S i)) by lia. rewrite Hj.
    destruct (Z.of_nat i =? -1) eqn:E1; [apply Z.eqb_eq in E1; lia|].
    destruct (Z.of_nat j =? -1) eqn:E2; [apply Z.eqb_eq in E2; lia|].
    rewrite SliceFacts.slice_inside by (simpl in Oj; lia). reflexivity.
  - intros i Hi Hn.
    apply (PyStrFacts.find_first body "# Description" 0 i) in Hi.
    apply (PyStrFacts.find_none body "#" (S i)) in Hn.
    change (Z.of_nat 0) with 0 in Hi. rewrite Hi.
    replace (Z.of_nat i + 1) with (Z.of_nat (S i)) by lia. rewrite Hn.
    destruct (Z.of_nat i =? -1) eqn:E1; [apply Z.eqb_eq in E1; lia|].
    reflexivity.
  - intros Hn.
    apply (PyStrFacts.find_none body "# Description" 0) in Hn.
    change (Z.of_nat 0) with 0 in Hn. rewrite Hn. reflexivity.
Qed.

(** The body of the specification's example: the section between the marker
    and the next ['#'] is returned. *)
Lemma get_current_pr_description_sections_witness :
  get_current_pr_description
    (Some (pr_with_body (Some "intro # Description body text # Footer")))
  = Ok "# Description body text ".
Proof.
  destruct (get_current_pr_description_sections
              (pr_with_body (Some "intro # Description body text # Footer"))
              "intro # Description body text # Footer" eq_refl) as (H & _).
  apply (H 6%nat 30%nat).
  - apply PyStrFacts.find_found. reflexivity.
  - apply PyStrFacts.find_found. reflexivity.
Defined.

(** C4, as the specification states it, fails where the marker occurs and no
    ['#'] follows it: the whole body comes back, the text before the marker
    included, and not the body from the marker on. *)
Lemma get_current_pr_description_unclosed_section :
  first_occurrence_from "# Description" "intro # Description body" 0 6 /\
  no_occurrence_from "#" "intro # Description body" 7 /\
  get_current_pr_description (Some (pr_with_body (Some "intro # Description body")))
  = Ok "intro # Description body" /\
  drop 6 "intro # Description body" = "# Description body" /\
  get_current_pr_description (Some (pr_with_body (Some "intro # Description body")))
  <> Ok (drop 6 "intro # Description body").
Proof.
  split; [apply PyStrFacts.find_found; reflexivity|].
  split; [apply PyStrFacts.find_not_found; reflexivity|].
  split; [reflexivity|]. split; [reflexivity|]. discriminate.
Qed.

(** C10. A pull request whose body is [null] makes
    [get_current_pr_description] raise ([None] has no [find]); with a body
    that is a string it returns a string. *)
Theorem get_current_pr_description_body_null (pr : PullRequest) :
  (pr_body pr = None ->
   get_current_pr_description (Some pr) = Raise AttributeError) /\
  (forall body, pr_body pr = Some body ->
   exists description, get_current_pr_description (Some pr) = Ok description).
Proof.
  unfold get_current_pr_description, subscript. split.
  - intros ->. reflexivity.
  - intros body ->.
    destruct (find body "# Description" 0 =? -1); [eexists; reflexivity|].
    destruct (find body "#" (find body "# Description" 0 + 1) =? -1);
      eexists; reflexivity.
Qed.

Lemma get_current_pr_description_body_null_witness :
  get_current_pr_description (Some (pr_with_body None)) = Raise AttributeError /\
  exists description,
    get_current_pr_description (Some (pr_with_body (Some "plain text"))) = Ok description.
Proof.
  split.
  - apply (proj1 (get_current_pr_description_body_null (pr_with_body None))).
    reflexivity.
  - apply (proj2 (get_current_pr_description_body_null
                    (pr_with_body (Some "plain text"))) "plain text").
    reflexivity.
Defined.

(** ** The size budget of the prompt *)

Module CharFacts.

Lemma char_count_app (a b : string) :
  char_count (a ++ b) = (char_count a + char_count b)%nat.
Proof.
  induction a as [|c a IH]; [reflexivity|]. cbn [String.append char_count].
  destruct (is_continuation c); rewrite IH; reflexivity.
Qed.

Lemma char_count_take (n : nat) (s : string) :
  char_count (take_chars n s) = Nat.min n (char_count s).
Proof.
  revert n. induction s as [|c s IH]; intros n; cbn [take_chars char_count].
  - now rewrite Nat.min_0_r.
  - destruct (is_continuation c) eqn:E.
    + cbn [char_count]. rewrite E. apply IH.
    + destruct n as [|n]; [reflexivity|]. cbn [char_count]. rewrite E, IH. reflexivity.
Qed.

Lemma take_chars_split (n : nat) (s : string) :
  exists tail, s = take_chars n s ++ tail /\ starts_char tail.
Proof.
  revert n. induction s as [|c s IH]; intros n; cbn [take_chars].
  - exists "". split; reflexivity.
  - destruct (is_continuation c) eqn:E.
    + destruct (IH n) as (tail & Hs & Ht). exists tail.
      split; [cbn; now rewrite <- Hs | exact Ht].
    + destruct n as [|n].
      * exists (String c s). split; [reflexivity | exact E].
      * destruct (IH n) as (tail & Hs & Ht). exists tail.
        split; [cbn; now rewrite <- Hs | exact Ht].
Qed.

Lemma take_chars_all (n : nat) (s : string) :
  (char_count s <= n)%nat -> take_chars n s = s.
Proof.
  revert n. induction s as [|c s IH]; intros n; cbn [take_chars char_count];
    [reflexivity|].
  destruct (is_continuation c).
  - intros H. now rewrite IH.
  - destruct n as [|n]; [lia|]. intros H. rewrite IH; [reflexivity | lia].
Qed.

Lemma take_chars_app (n : nat) (p q : string) :
  (n <= char_count p)%nat -> starts_char q ->
  take_chars n (p ++ q) = take_chars n p.
Proof.
  revert n. induction p as [|c p IH]; intros n Hn Hq.
  - cbn in Hn. assert (n = 0%nat) as -> by lia.
    destruct q as [|c q]; [reflexivity|]. cbn in Hq |- *. now rewrite Hq.
  - cbn [String.append take_chars char_count] in *.
    destruct (is_continuation c).
    + now rewrite IH.
    + destruct n as [|n]; [reflexivity|]. rewrite IH; [reflexivity | lia | exact Hq].
Qed.

End CharFacts.

(** Keeping the first [m] characters of a longer string. *)
Lemma keep_head (prompt : string) (m : Z) :
  0 <= m ->
  let kept := if char_len prompt >? m then head_chars prompt m else prompt in
  char_len kept = Z.min (char_len prompt) m /\
  (exists tail, prompt = kept ++ tail /\ starts_char tail) /\
  (char_len prompt > m -> kept = head_chars prompt m) /\
  (char_len prompt <= m -> kept = prompt).
Proof.
  intros Hm kept. subst kept. unfold char_len, head_chars.
  destruct (Z.of_nat (char_count prompt) >? m) eqn:E.
  - apply Z.gtb_lt in E. rewrite Z.min_r by lia. repeat split.
    + rewrite CharFacts.char_count_take. lia.
    + apply CharFacts.take_chars_split.
    + intros H. lia.
  - assert (Z.of_nat (char_count prompt) <= m) as Hle.
    { destruct (Z.gtb_spec (Z.of_nat (char_count prompt)) m);
        [discriminate | assumption]. }
    repeat split.
    + lia.
    + exists "". split; [now rewrite PyStrFacts.app_empty_r | exact I].
    + intros H. lia.
Qed.

(** C6. [trim_prompt] returns a prefix of the prompt whose length, in
    characters, is the smaller of the prompt's length and 8192 = 2048 * 4:
    the first 8192 characters of a longer prompt, cut between two
    characters, and the prompt itself otherwise. *)
Theorem trim_prompt_budget (prompt : string) :
  char_len (trim_prompt prompt) = Z.min (char_len prompt) 8192 /\
  (exists tail, prompt = trim_prompt prompt ++ tail /\ starts_char tail) /\
  (char_len prompt > 8192 -> trim_prompt prompt = head_chars prompt 8192) /\
  (char_len prompt <= 8192 -> trim_prompt prompt = prompt) /\
  2048 * 4 = 8192.
Proof.
  assert (0 <= 8192) as Hm by lia.
  destruct (keep_head prompt 8192 Hm) as (H1 & H2 & H3 & H4).
  repeat split; try assumption.
Qed.

Lemma trim_prompt_budget_witness :
  char_len (trim_prompt long_prompt) = 8192 /\
  trim_prompt "Changes in file a.yml: " = "Changes in file a.yml: " /\
  len accented_prompt = 10000 /\
  trim_prompt accented_prompt = accented_prompt /\
  char_len (trim_prompt (accented_prompt ++ accented_prompt)) = 8192 /\
  len (trim_prompt (accented_prompt ++ accented_prompt)) = 16384.
Proof.
  split; [|split; [|split; [|split; [|split]]]].
  - rewrite (proj1 (trim_prompt_budget long_prompt)). vm_compute. reflexivity.
  - apply (proj1 (proj2 (proj2 (proj2 (trim_prompt_budget "Changes in file a.yml: "))))).
    vm_compute. discriminate.
  - vm_compute. reflexivity.
  - apply (proj1 (proj2 (proj2 (proj2 (trim_prompt_budget accented_prompt))))).
    vm_compute. discriminate.
  - rewrite (proj1 (trim_prompt_budget (accented_prompt ++ accented_prompt))).
    vm_compute. reflexivity.
  - vm_compute. reflexivity.
Defined.

(** ** The blocks of file changes in the prompt *)

Lemma fold_prompt_step (files : list FileChange) (prompt : string) :
  fold_left prompt_step files prompt
  = prompt ++ join_all (map block_of (filter carries_patch files)).
Proof.
  revert prompt. induction files as [|f files IH]; intros prompt; simpl.
  - now rewrite PyStrFacts.app_empty_r.
  - rewrite IH. unfold prompt_step, carries_patch, block_of.
    destruct (patch f) as [p|] eqn:E; simpl.
    + rewrite E. now rewrite !PyStrFacts.app_assoc.
    + reflexivity.
Qed.

(** C7. After the head of the prompt (preamble, title, description and
    commits) [construct_prompt] puts one block
    ["Changes in file {filename}: \n{patch}\n"] for each file change that
    carries a patch, in the order of the list; a file change without a
    patch adds nothing. *)
Theorem construct_prompt_blocks (pull_request_title current_description : string)
    (commit_messages : Z + string) (files : list FileChange) :
  construct_prompt pull_request_title current_description commit_messages (inr files)
  = Ok (prompt_head pull_request_title current_description commit_messages
        ++ join_all (map block_of (filter carries_patch files))) /\
  (forall f, In f (filter carries_patch files) ->
     exists p, patch f = Some p /\
               block_of f = "Changes in file " ++ filename f ++ ": " ++ nl ++ p ++ nl) /\
  (forall before f after,
     files = (before ++ f :: after)%list -> patch f = None ->
     construct_prompt pull_request_title current_description commit_messages (inr files)
     = construct_prompt pull_request_title current_description commit_messages
         (inr (before ++ after)%list)).
Proof.
  unfold construct_prompt. repeat split.
  - now rewrite fold_prompt_step.
  - intros f Hf. apply filter_In in Hf. destruct Hf as [_ Hf].
    unfold carries_patch, block_of in *.
    destruct (patch f) as [p|]; [|discriminate]. exists p. split; reflexivity.
  - intros before f after -> Hf. rewrite !fold_prompt_step.
    rewrite !filter_app. simpl. unfold carries_patch at 2. rewrite Hf. reflexivity.
Qed.

Lemma construct_prompt_blocks_witness :
  construct_prompt "Enable X" "" (inr "add X") (inr two_files)
  = Ok (prompt_head "Enable X" "" (inr "add X")
        ++ "Changes in file a.yml: " ++ nl ++ "+line" ++ nl) /\
  construct_prompt "Enable X" "" (inr "add X") (inr two_files)
  = construct_prompt "Enable X" "" (inr "add X")
      (inr [ {| filename := "a.yml"; patch := Some "+line" |} ]).
Proof.
  destruct (construct_prompt_blocks "Enable X" "" (inr "add X") two_files)
    as (H1 & _ & H3).
  split.
  - rewrite H1. reflexivity.
  - apply (H3 [] {| filename := "logo.png"; patch := None |}
              [ {| filename := "a.yml"; patch := Some "+line" |} ]); reflexivity.
Defined.

(** ** Paging through the file changes *)

Lemma bind_requests_get {A B} (r : request) (f : Host -> response A)
    (k : response A -> M B) (h : Host) :
  (x <- requests_get r f ;; k x) h
  = let (o, t) := k (f h) h in (o, Http r :: t).
Proof.
  unfold bind, requests_get, emit, ask. simpl.
  destruct (k (f h) h). reflexivity.
Qed.

Lemma files_loop_ok (h : Host) (nums : list Z) :
  forall acc,
  (forall n, In n nums -> status_code (pull_files_result h n 30) = codes_ok) ->
  files_loop nums acc h
  = (Ok (inr (acc ++ List.concat
                 (nonempty_prefix
                    (map (fun n => text (pull_files_result h n 30)) nums)))%list),
     map (fun n => Http (GetFiles n 30))
         (firstn (S (List.length
                       (nonempty_prefix
                          (map (fun n => text (pull_files_result h n 30)) nums))))
                 nums)).
Proof.
  induction nums as [|n nums IH]; intros acc Hok.
  - simpl. rewrite app_nil_r. reflexivity.
  - cbn [files_loop]. rewrite bind_requests_get.
    rewrite (Hok n (or_introl eq_refl)). change (negb (codes_ok =? codes_ok)) with false.
    cbv iota. cbn [map nonempty_prefix].
    destruct (text (pull_files_result h n 30)) as [|c chunk] eqn:E.
    + simpl. rewrite app_nil_r. reflexivity.
    + change (Z.of_nat (List.length (c :: chunk)) =? 0) with false. cbv iota.
      rewrite IH by (intros m Hm; apply Hok; right; assumption).
      cbn [List.concat List.length firstn map]. rewrite <- app_assoc. reflexivity.
Qed.

Lemma nonempty_prefix_all {A} (l : list (list A)) (n : nat) :
  Forall (fun c => List.length c = S n) l -> nonempty_prefix l = l.
Proof.
  induction 1 as [|c l Hc _ IH]; simpl; [reflexivity|].
  destruct c; [discriminate | now rewrite IH].
Qed.

Lemma length_concat_const {A} (l : list (list A)) (n : nat) :
  Forall (fun c => List.length c = n) l ->
  List.length (List.concat l) = (List.length l * n)%nat.
Proof.
  induction 1 as [|c l Hc _ IH]; simpl; [reflexivity|].
  rewrite length_app, IH, Hc. reflexivity.
Qed.

Lemma in_firstn {A} (k : nat) (l : list A) (x : A) :
  In x (firstn k l) -> In x l.
Proof.
  revert l. induction k as [|k IH]; intros [|y l]; simpl; try contradiction.
  intros [->|H]; [now left | right; now apply IH].
Qed.

Lemma range_1_11 : range 1 11 = [1; 2; 3; 4; 5; 6; 7; 8; 9; 10].
Proof. reflexivity. Qed.

(** C5. When the host answers every page request with success,
    [get_pull_request_files] asks for pages of 30 entries, pages 1, 2, ...
    in turn, returns the entries of the pages before the first empty one
    joined in that order, asks for nothing after the first empty page, and
    for no page after the tenth. With pages of 30, 30 and 0 entries it
    returns 60 entries after three requests; with ten pages of 30 entries
    it returns 300 entries after ten requests. *)
Theorem get_pull_request_files_paging (h : Host) :
  (forall n, 1 <= n <= 10 -> status_code (pull_files_result h n 30) = codes_ok) ->
  let chunks := map (fun n => text (pull_files_result h n 30)) (range 1 11) in
  let fetched := nonempty_prefix chunks in
  get_pull_request_files h
  = (Ok (inr (List.concat fetched)),
     map (fun n => Http (GetFiles n 30))
         (firstn (S (List.length fetched)) (range 1 11))) /\
  (forall e, In e (snd (get_pull_request_files h)) ->
     exists n, e = Http (GetFiles n 30) /\ 1 <= n <= 10) /\
  (map (@List.length FileChange) (firstn 3 chunks) = [30; 30; 0]%nat ->
   exists files,
     get_pull_request_files h
     = (Ok (inr files),
        [Http (GetFiles 1 30); Http (GetFiles 2 30); Http (GetFiles 3 30)]) /\
     List.length files = 60%nat) /\
  (Forall (fun c => List.length c = 30%nat) chunks ->
   exists files,
     get_pull_request_files h
     = (Ok (inr files), map (fun n => Http (GetFiles n 30)) (range 1 11)) /\
     List.length files = 300%nat).
Proof.
  intros Hok chunks fetched.
  assert (get_pull_request_files h
          = (Ok (inr (List.concat fetched)),
             map (fun n => Http (GetFiles n 30))
                 (firstn (S (List.length fetched)) (range 1 11)))) as Hrun.
  { unfold get_pull_request_files. rewrite files_loop_ok.
    - reflexivity.
    - intros n Hn. apply Hok. rewrite range_1_11 in Hn. simpl in Hn.
      repeat (destruct Hn as [<-|Hn]; [lia|]). contradiction. }
  split; [exact Hrun|]. split; [|split].
  - rewrite Hrun. cbn [snd]. intros e He. apply in_map_iff in He.
    destruct He as (n & <- & Hn). exists n. split; [reflexivity|].
    apply in_firstn in Hn. rewrite range_1_11 in Hn. simpl in Hn.
    repeat (destruct Hn as [<-|Hn]; [lia|]). contradiction.
  - intros H3. rewrite Hrun. subst fetched chunks. rewrite range_1_11 in *.
    cbn [map firstn] in H3. injection H3 as H1 H2 H0.
    cbn [map].
    destruct (text (pull_files_result h 1 30)) as [|a1 c1] eqn:E1; [discriminate|].
    destruct (text (pull_files_result h 2 30)) as [|a2 c2] eqn:E2; [discriminate|].
    destruct (text (pull_files_result h 3 30)) as [|a3 c3] eqn:E3; [|discriminate].
    cbn [nonempty_prefix List.concat List.length firstn map].
    eexists. split; [reflexivity|].
    rewrite app_nil_r, length_app. rewrite H1, H2. reflexivity.
  - intros Hall. rewrite Hrun. subst fetched.
    rewrite (nonempty_prefix_all chunks 29 Hall).
    eexists. split.
    + reflexivity.
    + rewrite (length_concat_const chunks 30 Hall). subst chunks.
      rewrite length_map, range_1_11. reflexivity.
Qed.

Lemma get_pull_request_files_paging_witness :
  exists files,
    get_pull_request_files (sample_host "octocat" two_full_pages [])
    = (Ok (inr files),
       [Http (GetFiles 1 30); Http (GetFiles 2 30); Http (GetFiles 3 30)]) /\
    List.length files = 60%nat.
Proof.
  destruct (get_pull_request_files_paging (sample_host "octocat" two_full_pages []))
    as (_ & _ & H & _).
  - intros n Hn. reflexivity.
  - apply H. reflexivity.
Defined.

(** ** The check for an earlier generated description *)

Lemma bind_emit {B} (e : event) (k : M B) (h : Host) :
  (emit e ;;; k) h = let (o, t) := k h in (o, e :: t).
Proof. unfold bind, emit. destruct (k h). reflexivity. Qed.

Lemma comments_loop_truthy (title : string) (comments : list Comment) (h : Host) :
  exists v, fst (comments_loop title comments h) = Ok v /\
    (truthy v = true <->
     exists c, In c comments /\ contains title (comment_body c) = true).
Proof.
  induction comments as [|c comments IH]; cbn [comments_loop].
  - exists None. split; [reflexivity|]. split; [discriminate|].
    intros (c & [] & _).
  - destruct (contains title (comment_body c)) eqn:E.
    + exists (Some 1). split; [reflexivity|]. split; [|reflexivity].
      intros _. exists c. split; [now left | assumption].
    + destruct IH as (v & Hv & Hiff). exists v. split; [assumption|].
      rewrite Hiff. split.
      * intros (c' & Hin & Hc'). exists c'. split; [now right | assumption].
      * intros (c' & [<-|Hin] & Hc'); [congruence|]. exists c'. now split.
Qed.

(** C8. When the comments are fetched, what
    [check_if_description_has_already_been_autogenerated] returns is true
    if and only if the body of at least one comment contains the title; it
    is false for an empty list of comments. *)
Theorem already_autogenerated_iff (h : Host) (title : string) :
  status_code (comments_result h) = codes_ok ->
  exists v,
    fst (check_if_description_has_already_been_autogenerated title h) = Ok v /\
    (truthy v = true <->
     exists c, In c (text (comments_result h)) /\ occurs title (comment_body c)) /\
    (text (comments_result h) = [] -> truthy v = false).
Proof.
  intros Hok. unfold check_if_description_has_already_been_autogenerated.
  rewrite bind_requests_get, Hok.
  change (negb (codes_ok =? codes_ok)) with false. cbv iota.
  rewrite bind_emit.
  destruct (comments_loop_truthy title (text (comments_result h)) h) as (v & Hv & Hiff).
  destruct (comments_loop title (text (comments_result h)) h) as [o t] eqn:E.
  cbn [fst] in *. exists v. split; [assumption|]. split.
  - rewrite Hiff. split; intros (c & Hin & Hc); exists c; split; try assumption;
      now apply PyStrFacts.contains_iff.
  - intros Hnil. rewrite Hnil in Hiff.
    destruct (truthy v); [|reflexivity].
    destruct (proj1 Hiff eq_refl) as (c & [] & _).
Qed.

Lemma already_autogenerated_iff_witness :
  exists v,
    fst (check_if_description_has_already_been_autogenerated autogenerated_title
           (sample_host "octocat" one_page
              [ {| comment_body := "LGTM" |};
                {| comment_body := "# Auto-generated description:" ++ nl ++ nl ++ "GENERATED" |} ]))
    = Ok v /\ truthy v = true.
Proof.
  destruct (already_autogenerated_iff
              (sample_host "octocat" one_page
                 [ {| comment_body := "LGTM" |};
                   {| comment_body := "# Auto-generated description:" ++ nl ++ nl ++ "GENERATED" |} ])
              autogenerated_title eq_refl) as (v & Hv & Hiff & _).
  exists v. split; [exact Hv|]. apply Hiff.
  eexists. split; [right; left; reflexivity|].
  apply PyStrFacts.contains_iff. reflexivity.
Defined.

(** ** What [main] generates and publishes *)

Lemma bind_run {A B} (m : M A) (k : A -> M B) (h : Host) :
  bind m k h
  = match m h with
    | (Ok a, t1) => (fst (k a h), (t1 ++ snd (k a h))%list)
    | (Raise e, t1) => (Raise e, t1)
    end.
Proof.
  unfold bind. destruct (m h) as [[a|e] t1]; [|reflexivity].
  destruct (k a h). reflexivity.
Qed.

Lemma quiet_app (t1 t2 : list event) : quiet t1 -> quiet t2 -> quiet (t1 ++ t2).
Proof.
  unfold quiet, publish_calls, generation_calls.
  intros [H1 H2] [H3 H4]. rewrite !filter_app, H1, H2, H3, H4. split; reflexivity.
Qed.

Lemma quiet_nil : quiet [].
Proof. split; reflexivity. Qed.

Lemma quiet_get_pull_request_data (h : Host) : quiet (snd (get_pull_request_data h)).
Proof.
  unfold get_pull_request_data. rewrite bind_requests_get.
  destruct (negb _); split; reflexivity.
Qed.

Lemma quiet_check_author (d : option PullRequest) (allowed_users : list string) (h : Host) :
  quiet (snd (check_pull_request_author_is_allowed_to_trigger_action d allowed_users h)).
Proof.
  unfold check_pull_request_author_is_allowed_to_trigger_action.
  destruct allowed_users; [apply quiet_nil|].
  destruct d as [d|]; [|apply quiet_nil].
  unfold bind, lift, subscript. destruct (negb _); split; reflexivity.
Qed.

Lemma quiet_comments_loop (title : string) (comments : list Comment) (h : Host) :
  quiet (snd (comments_loop title comments h)).
Proof.
  induction comments as [|c comments IH]; cbn [comments_loop]; [apply quiet_nil|].
  destruct (contains _ _); [split; reflexivity | exact IH].
Qed.

Lemma quiet_check_autogenerated (title : string) (h : Host) :
  quiet (snd (check_if_description_has_already_been_autogenerated title h)).
Proof.
  unfold check_if_description_has_already_been_autogenerated.
  rewrite bind_requests_get. destruct (negb _); [split; reflexivity|].
  rewrite bind_emit.
  pose proof (quiet_comments_loop title (text (comments_result h)) h) as [H1 H2].
  destruct (comments_loop _ _ h) as [o t]. split; assumption.
Qed.

Lemma quiet_lift {A} (r : outcome A) (h : Host) : quiet (snd (lift r h)).
Proof. apply quiet_nil. Qed.

Lemma quiet_get_commit_messages (h : Host) : quiet (snd (get_commit_messages h)).
Proof.
  unfold get_commit_messages. rewrite bind_requests_get.
  destruct (negb _); split; reflexivity.
Qed.

Lemma quiet_files_loop (nums : list Z) (h : Host) :
  forall acc, quiet (snd (files_loop nums acc h)).
Proof.
  induction nums as [|n nums IH]; intros acc; cbn [files_loop]; [apply quiet_nil|].
  rewrite bind_requests_get. destruct (negb _); [split; reflexivity|].
  destruct (_ =? 0); [split; reflexivity|].
  pose proof (IH (acc ++ text (pull_files_result h n 30))%list) as [H1 H2].
  destruct (files_loop _ _ h) as [o t]. split; assumption.
Qed.

Lemma quiet_get_pull_request_files (h : Host) : quiet (snd (get_pull_request_files h)).
Proof. apply quiet_files_loop. Qed.

Create HintDb quiet_steps.
#[local] Hint Resolve quiet_nil quiet_app quiet_get_pull_request_data quiet_check_author
  quiet_check_autogenerated quiet_lift quiet_get_commit_messages
  quiet_get_pull_request_files : quiet_steps.

Lemma at_most_one_comment_quiet (h : Host) (t : list event) :
  quiet t -> at_most_one_comment h t.
Proof. intros [H _]. left. exact H. Qed.

Lemma at_most_one_comment_app (h : Host) (t1 t2 : list event) :
  quiet t1 -> at_most_one_comment h t2 -> at_most_one_comment h (t1 ++ t2).
Proof.
  unfold at_most_one_comment, quiet, publish_calls, generation_calls.
  intros [H1 H2] [H|(r & g & Hg & H3 & H4)]; rewrite !filter_app, H1, ?H2.
  - left. exact H.
  - right. exists r, g. repeat split; assumption.
Qed.

(** One step of [main] whose events are quiet: either it raises, and the
    run ends there, or the run goes on with its result. *)
Ltac quiet_step :=
  rewrite bind_run;
  match goal with
  | |- context [match ?m ?h with _ => _ end] =>
      let Q := fresh "Q" in
      assert (quiet (snd (m h))) as Q by auto with quiet_steps;
      let a := fresh "a" in
      let t := fresh "t" in
      destruct (m h) as [[a|?] t]; cbn [fst snd] in Q |- *;
      [apply at_most_one_comment_app; [exact Q|]
      | apply at_most_one_comment_quiet; exact Q]
  end.

Lemma main_calls (cfg : Config) (h : Host) :
  at_most_one_comment h (snd (main cfg h)).
Proof.
  unfold main.
  do 8 quiet_step.
  unfold send_prompt_to_openai.
  match goal with |- context [ChatCompletion ?x] => set (r := x) end.
  rewrite bind_run, bind_emit.
  destruct (chat_completion h r) as [g|e] eqn:E; cbn [fst snd].
  - right. exists r, g. split; [exact E|].
    unfold print. rewrite bind_emit.
    unfold write_description_as_comment, requests_post.
    unfold bind, emit, ask, ret. cbn [fst snd app].
    destruct (negb _); split; reflexivity.
  - left. reflexivity.
Qed.

(** C9. [add_title_to_description] is the title, two newline characters and
    the description; and whenever a run of [main] posts a comment, its body
    is the title ["# Auto-generated description:"], two newline characters
    and the text that the generation call of that run returned. *)
Theorem published_comment_body (cfg : Config) (h : Host) :
  (forall title generated,
     add_title_to_description title generated
     = title ++ String (ascii_of_nat 10) (String (ascii_of_nat 10) generated)) /\
  (forall body,
     In (Http (PostComment body)) (snd (main cfg h)) ->
     exists r generated,
       chat_completion h r = Ok generated /\
       In (ChatCompletion r) (snd (main cfg h)) /\
       body = "# Auto-generated description:" ++ nl ++ nl ++ generated).
Proof.
  split; [reflexivity|].
  intros body Hin.
  assert (In (Http (PostComment body)) (publish_calls (snd (main cfg h)))) as Hp.
  { apply filter_In. split; [exact Hin | reflexivity]. }
  destruct (main_calls cfg h) as [Hnone|(r & g & Hg & Hgen & Hpub)].
  - rewrite Hnone in Hp. contradiction.
  - exists r, g. split; [exact Hg|]. split.
    + assert (In (ChatCompletion r) (generation_calls (snd (main cfg h)))) as Hr
        by (rewrite Hgen; now left).
      apply filter_In in Hr. exact (proj1 Hr).
    + rewrite Hpub in Hp. destruct Hp as [Hp|[]]. now injection Hp as <-.
Qed.

Ltac find_event :=
  vm_compute;
  repeat match goal with
         | |- _ \/ _ => first [left; reflexivity | right]
         end.

Lemma published_comment_body_witness :
  exists r generated,
    chat_completion (sample_host "octocat" one_page []) r = Ok generated /\
    In (ChatCompletion r) (snd (main sample_config (sample_host "octocat" one_page []))) /\
    "# Auto-generated description:" ++ nl ++ nl ++ "GENERATED"
    = "# Auto-generated description:" ++ nl ++ nl ++ generated.
Proof.
  apply (proj2 (published_comment_body sample_config (sample_host "octocat" one_page []))).
  find_event.
Defined.

(** ** Runs that go on where the specification has them stop *)

(** C1 on the code: a comment that holds the title is found (the check
    returns [1]), and [main], which does not look at what the check
    returned, still makes one generation call and posts one comment. *)
Lemma main_ignores_earlier_description :
  fst (check_if_description_has_already_been_autogenerated autogenerated_title
         (sample_host "octocat" one_page [earlier_comment])) = Ok (Some 1) /\
  fst (run sample_config (sample_host "octocat" one_page [earlier_comment])) = 0 /\
  List.length (generation_calls
                 (snd (run sample_config (sample_host "octocat" one_page [earlier_comment]))))
  = 1%nat /\
  publish_calls (snd (run sample_config (sample_host "octocat" one_page [earlier_comment])))
  = [Http (PostComment ("# Auto-generated description:" ++ nl ++ nl ++ "GENERATED"))].
Proof. repeat split; vm_compute; reflexivity. Qed.

(** C3 on the code: with the allowed users [alice] and [bob] and a pull
    request by [mallory], the check prints its line and returns [0], and
    [main], which does not look at what the check returned, still makes one
    generation call and posts one comment. *)
Lemma main_ignores_allowed_users :
  allowed_users_of (INPUT_ALLOWED_USERS restricted_config) = ["alice"; "bob"] /\
  check_pull_request_author_is_allowed_to_trigger_action
    (Some (text (pull_request_result (sample_host "mallory" one_page []))))
    ["alice"; "bob"] (sample_host "mallory" one_page [])
  = (Ok (Some 0),
     [Print "Pull request author mallory is not allowed to trigger this action"]) /\
  fst (run restricted_config (sample_host "mallory" one_page [])) = 0 /\
  List.length (generation_calls
                 (snd (run restricted_config (sample_host "mallory" one_page []))))
  = 1%nat /\
  publish_calls (snd (run restricted_config (sample_host "mallory" one_page [])))
  = [Http (PostComment ("# Auto-generated description:" ++ nl ++ nl ++ "GENERATED"))].
Proof. repeat split; vm_compute; reflexivity. Qed.

(** C2 on the code: when the request that posts the comment is answered
    with status 403, or the request for the commits with status 500, the
    function that made the request returns [1] and [main] goes on and ends
    with exit status 0. *)
Lemma main_exits_zero_after_failed_requests :
  fst (write_description_as_comment "text" (host_with_statuses 200 403)) = Ok (Some 1) /\
  fst (run sample_config (host_with_statuses 200 403)) = 0 /\
  In (Print "Request to add comment to pull request failed: 403")
     (snd (run sample_config (host_with_statuses 200 403))) /\
  fst (get_commit_messages (host_with_statuses 500 201)) = Ok (inl 1) /\
  fst (run sample_config (host_with_statuses 500 201)) = 0 /\
  In (Print "Request to get list of commits failed with error code: 500")
     (snd (run sample_config (host_with_statuses 500 201))) /\
  publish_calls (snd (run sample_config (host_with_statuses 500 201)))
  = [Http (PostComment ("# Auto-generated description:" ++ nl ++ nl ++ "GENERATED"))].
Proof.
  repeat split; try (vm_compute; reflexivity); find_event.
Qed.


(** * Further properties of the script *)

(** ** The requests for file changes, on any host *)

Lemma files_loop_cases (h : Host) (nums : list Z) :
  nums <> [] ->
  forall acc,
  exists k, (1 <= k <= List.length nums)%nat /\
    (files_loop nums acc h
     = (Ok (inr (acc ++ List.concat
                   (map (fun n => text (pull_files_result h n 30)) (firstn k nums)))%list),
        map (fun n => Http (GetFiles n 30)) (firstn k nums))
     \/
     exists n,
       nth_error nums (k - 1) = Some n /\
       status_code (pull_files_result h n 30) <> codes_ok /\
       files_loop nums acc h
       = (Ok (inl 1),
          (map (fun n => Http (GetFiles n 30)) (firstn k nums)
           ++ [Print ("Request to get list of files failed with error code: "
                      ++ str_of_int (status_code (pull_files_result h n 30)))])%list)).
Proof.
  induction nums as [|n nums IH]; intros Hne acc; [contradiction|].
  cbn [files_loop]. rewrite bind_requests_get.
  destruct (status_code (pull_files_result h n 30) =? codes_ok) eqn:Es; cbn [negb].
  - destruct (text (pull_files_result h n 30)) as [|c chunk] eqn:Et.
    + exists 1%nat. split; [simpl; lia|]. left.
      cbn [firstn map List.concat app]. rewrite Et. cbn. now rewrite app_nil_r.
    + change (Z.of_nat (List.length (c :: chunk)) =? 0) with false. cbv iota.
      destruct nums as [|m nums].
      * exists 1%nat. split; [simpl; lia|]. left.
        cbn [firstn map List.concat app files_loop]. rewrite Et.
        unfold ret. now rewrite app_nil_r.
      * destruct (IH ltac:(discriminate) (acc ++ c :: chunk)%list)
          as (k & Hk & [Hrun|(x & Hx & Hs & Hrun)]).
        -- exists (S k). split; [simpl in *; lia|]. left. rewrite Hrun.
           cbn [firstn map List.concat]. rewrite Et, <- !app_assoc. reflexivity.
        -- exists (S k). split; [simpl in *; lia|]. right. exists x.
           split; [|split; [exact Hs|]].
           ++ destruct k as [|k]; [lia|]. cbn [Nat.sub nth_error] in *.
              rewrite Nat.sub_0_r in *. destruct k; exact Hx.
           ++ rewrite Hrun. reflexivity.
  - exists 1%nat. split; [simpl; lia|]. right. exists n.
    split; [reflexivity|]. split; [|reflexivity].
    intros H. rewrite H in Es. discriminate.
Qed.


Lemma in_firstn_range_1_11 (k : nat) (n : Z) :
  In n (firstn k (range 1 11)) -> 1 <= n <= 10 /\ n <= Z.of_nat k.
Proof.
  rewrite range_1_11.
  do 11 (destruct k as [|k];
         [cbn; intros H; repeat (destruct H as [<-|H]; [lia|]); contradiction|]).
  cbn. intros H. repeat (destruct H as [<-|H]; [lia|]). contradiction.
Qed.


Lemma length_concat_le {A} (l : list (list A)) (n : nat) :
  Forall (fun c => (List.length c <= n)%nat) l ->
  (List.length (List.concat l) <= List.length l * n)%nat.
Proof.
  induction 1 as [|c l Hc _ IH]; simpl; [lia|]. rewrite length_app. lia.
Qed.

(** X19. When no page of the listing holds more than 30 entries, as the
    request asks, [get_pull_request_files] returns at most 300 file
    changes. *)
Theorem get_pull_request_files_at_most_300 (h : Host) (files : list FileChange) :
  (forall n, 1 <= n <= 10 ->
     (List.length (text (pull_files_result h n 30)) <= 30)%nat) ->
  fst (get_pull_request_files h) = Ok (inr files) ->
  (List.length files <= 300)%nat.
Proof.
  intros Hpage Hrun. unfold get_pull_request_files in Hrun.
  destruct (files_loop_cases h (range 1 11) ltac:(discriminate) [])
    as (k & Hk & [E|(n & _ & _ & E)]);
    rewrite E in Hrun; cbn [fst] in Hrun; [|discriminate].
  injection Hrun as <-. cbn [app].
  etransitivity.
  - apply (length_concat_le _ 30). apply Forall_forall. intros c Hc.
    apply in_map_iff in Hc. destruct Hc as (n & <- & Hn).
    apply Hpage. apply in_firstn_range_1_11 in Hn. lia.
  - rewrite length_map, length_firstn, range_1_11. cbn [List.length]. lia.
Qed.

Lemma get_pull_request_files_at_most_300_witness :
  (List.length (two_full_pages 1 ++ two_full_pages 2) <= 300)%nat.
Proof.
  apply (get_pull_request_files_at_most_300 (sample_host "octocat" two_full_pages [])).
  - intros n Hn. unfold sample_host, ok_response, two_full_pages.
    cbn [pull_files_result text]. destruct (n <=? 2); cbn [List.length repeat]; lia.
  - vm_compute. reflexivity.
Defined.

Lemma files_loop_fails (h : Host) (before : list Z) (n : Z) (after : list Z) :
  Forall (fun m => status_code (pull_files_result h m 30) = codes_ok /\
                   text (pull_files_result h m 30) <> []) before ->
  status_code (pull_files_result h n 30) <> codes_ok ->
  forall acc,
  files_loop (before ++ n :: after) acc h
  = (Ok (inl 1),
     (map (fun m => Http (GetFiles m 30)) (before ++ [n])
      ++ [Print ("Request to get list of files failed with error code: "
                 ++ str_of_int (status_code (pull_files_result h n 30)))])%list).
Proof.
  intros Hb Hn. induction Hb as [|m before [Hs Ht] _ IH]; intros acc.
  - cbn [app files_loop]. rewrite bind_requests_get.
    destruct (status_code (pull_files_result h n 30) =? codes_ok) eqn:E;
      [apply Z.eqb_eq in E; contradiction|]. reflexivity.
  - cbn [app files_loop]. rewrite bind_requests_get, Hs.
    change (negb (codes_ok =? codes_ok)) with false. cbv iota.
    destruct (text (pull_files_result h m 30)) as [|c chunk]; [contradiction|].
    change (Z.of_nat (List.length (c :: chunk)) =? 0) with false. cbv iota.
    rewrite IH. reflexivity.
Qed.

Lemma range_1_11_split (k : Z) :
  1 <= k <= 10 -> range 1 11 = (range 1 k ++ k :: range (k + 1) 11)%list.
Proof.
  intros Hk.
  assert (k = 1 \/ k = 2 \/ k = 3 \/ k = 4 \/ k = 5 \/ k = 6 \/ k = 7 \/ k = 8
          \/ k = 9 \/ k = 10) as H by lia.
  repeat (destruct H as [->|H]; [reflexivity|]). subst k. reflexivity.
Qed.

Lemma in_range (a b n : Z) : In n (range a b) -> a <= n < b.
Proof.
  unfold range. intros H. apply in_map_iff in H. destruct H as (i & <- & Hi).
  apply in_seq in Hi. lia.
Qed.

(** X20. When the request for page k of the file changes fails, after pages
    1 to k - 1 were fetched with entries on each, [get_pull_request_files]
    stops at page k, prints the status and returns [1]: the entries
    fetched from the earlier pages are not returned. *)
Theorem get_pull_request_files_failed_page (h : Host) (k : Z) :
  1 <= k <= 10 ->
  (forall n, 1 <= n < k ->
     status_code (pull_files_result h n 30) = codes_ok /\
     text (pull_files_result h n 30) <> []) ->
  status_code (pull_files_result h k 30) <> codes_ok ->
  get_pull_request_files h
  = (Ok (inl 1),
     (map (fun n => Http (GetFiles n 30)) (range 1 (k + 1))
      ++ [Print ("Request to get list of files failed with error code: "
                 ++ str_of_int (status_code (pull_files_result h k 30)))])%list).
Proof.
  intros Hk Hbefore Hfail. unfold get_pull_request_files.
  rewrite (range_1_11_split k Hk).
  rewrite files_loop_fails; [|apply Forall_forall; intros n Hn; apply Hbefore;
                               apply in_range in Hn; lia | exact Hfail].
  do 3 f_equal.
  assert (k = 1 \/ k = 2 \/ k = 3 \/ k = 4 \/ k = 5 \/ k = 6 \/ k = 7 \/ k = 8
          \/ k = 9 \/ k = 10) as H by lia.
  repeat (destruct H as [->|H]; [reflexivity|]). subst k. reflexivity.
Qed.

Lemma get_pull_request_files_failed_page_witness :
  get_pull_request_files host_failing_on_page_2
  = (Ok (inl 1),
     [ Http (GetFiles 1 30); Http (GetFiles 2 30);
       Print "Request to get list of files failed with error code: 502" ]).
Proof.
  apply (get_pull_request_files_failed_page host_failing_on_page_2 2).
  - lia.
  - intros n Hn. assert (n = 1) as -> by lia. split; [reflexivity | discriminate].
  - discriminate.
Defined.

(** ** What the steps of [main] return *)

Lemma get_pull_request_data_returns (h : Host) :
  fst (get_pull_request_data h)
  = Ok (if status_code (pull_request_result h) =? codes_ok
        then Some (text (pull_request_result h)) else None).
Proof.
  unfold get_pull_request_data. rewrite bind_requests_get.
  destruct (_ =? _); reflexivity.
Qed.

Lemma check_author_returns (pr : PullRequest) (allowed_users : list string) (h : Host) :
  fst (check_pull_request_author_is_allowed_to_trigger_action (Some pr) allowed_users h)
  = Ok (match allowed_users with
        | [] => None
        | _ :: _ => if mem (pr_user_login pr) allowed_users then None else Some 0
        end).
Proof.
  unfold check_pull_request_author_is_allowed_to_trigger_action.
  destruct allowed_users as [|u l]; [reflexivity|].
  unfold bind, lift, subscript. destruct (mem _ _); reflexivity.
Qed.

Lemma check_author_without_data (allowed_users : list string) (h : Host) :
  check_pull_request_author_is_allowed_to_trigger_action None allowed_users h
  = (match allowed_users with [] => Ok None | _ :: _ => Raise TypeError end, []).
Proof. destruct allowed_users; reflexivity. Qed.

Lemma check_autogenerated_returns (title : string) (h : Host) :
  exists v, fst (check_if_description_has_already_been_autogenerated title h) = Ok v.
Proof.
  unfold check_if_description_has_already_been_autogenerated.
  rewrite bind_requests_get. destruct (negb _); [eexists; reflexivity|].
  rewrite bind_emit.
  destruct (comments_loop_truthy title (text (comments_result h)) h) as (v & Hv & _).
  destruct (comments_loop _ _ h) as [o t]. exists v. exact Hv.
Qed.

Lemma get_commit_messages_returns (h : Host) :
  fst (get_commit_messages h)
  = Ok (if status_code (pull_commit_result h) =? codes_ok
        then inr (String.concat nl (map commit_message (text (pull_commit_result h))))
        else inl 1).
Proof.
  unfold get_commit_messages. rewrite bind_requests_get.
  destruct (_ =? _); reflexivity.
Qed.

Lemma get_pull_request_files_returns (h : Host) :
  exists v, fst (get_pull_request_files h) = Ok v.
Proof.
  unfold get_pull_request_files.
  destruct (files_loop_cases h (range 1 11) ltac:(discriminate) [])
    as (k & _ & [E|(n & _ & _ & E)]); rewrite E; eexists; reflexivity.
Qed.

(** ** The shape of a run *)

Lemma run_shape_app (cfg : Config) (h : Host) (t1 : list event)
    (x : outcome unit * list event) :
  quiet t1 -> run_shape cfg h x -> run_shape cfg h (fst x, (t1 ++ snd x)%list).
Proof.
  intros Q [pre Hq H1 | pr e pre Hq H1 H2 | pr d n pre Hq H1 H2 H3
           | pr d cm fs p e pre Hq Hin He | pr d cm fs p g pre Hq Hin Hg]; cbn [fst snd].
  - apply no_pull_request; [now apply quiet_app | exact H1].
  - eapply no_description; [now apply quiet_app | exact H1 | exact H2].
  - eapply no_files; [now apply quiet_app | exact H1 | exact H2 | exact H3].
  - rewrite List.app_assoc.
    eapply generation_failed; [now apply quiet_app | exact Hin | exact He].
  - rewrite List.app_assoc.
    eapply posted; [now apply quiet_app | exact Hin | exact Hg].
Qed.

(** One step of [main] before the generation call: the step's events are
    quiet, and what it returned is left to look at. *)
Ltac shape_step :=
  rewrite bind_run;
  match goal with
  | |- context [match ?m ?h with _ => _ end] =>
      let Q := fresh "Q" in
      assert (quiet (snd (m h))) as Q by auto with quiet_steps;
      let o := fresh "o" in
      let t := fresh "t" in
      let E := fresh "E" in
      destruct (m h) as [o t] eqn:E; cbn [fst snd] in Q
  end.

Ltac went_on Q := apply run_shape_app; [exact Q|].

Lemma main_shape (cfg : Config) (h : Host) : run_shape cfg h (main cfg h).
Proof.
  unfold main.
  (* the pull request *)
  shape_step. pose proof (get_pull_request_data_returns h) as Hd.
  rewrite E in Hd. cbn [fst] in Hd. subst o. went_on Q.
  set (d := if status_code (pull_request_result h) =? codes_ok
            then Some (text (pull_request_result h)) else None) in *.
  assert (fst (get_pull_request_data h) = Ok d) as Hd by (rewrite E; reflexivity).
  clearbody d. clear E Q t.
  (* the author *)
  shape_step. destruct o as [v|e].
  2:{ destruct d as [pr|].
      - rewrite (surjective_pairing (check_pull_request_author_is_allowed_to_trigger_action _ _ _)) in E.
        rewrite check_author_returns in E. discriminate.
      - rewrite check_author_without_data in E.
        destruct (allowed_users_of _); [discriminate|]. injection E as <- <-.
        apply no_pull_request; assumption. }
  went_on Q. clear E Q t v.
  (* the earlier comments *)
  shape_step. destruct o as [v|e].
  2:{ destruct (check_autogenerated_returns autogenerated_title h) as [v Hv].
      rewrite E in Hv. discriminate. }
  went_on Q. clear E Q t v.
  (* the title *)
  shape_step. destruct d as [pr|].
  2:{ unfold lift, subscript in E. injection E as <- <-.
      apply no_pull_request; assumption. }
  unfold lift, subscript in E. injection E as <- <-. went_on Q. clear Q.
  (* the description *)
  shape_step. unfold lift in E. injection E as <- <-.
  destruct (get_current_pr_description (Some pr)) as [description|e] eqn:Edesc.
  2:{ eapply no_description; eassumption. }
  went_on Q. clear Q.
  (* the commits *)
  shape_step. pose proof (get_commit_messages_returns h) as Hc.
  rewrite E in Hc. cbn [fst] in Hc. destruct o as [commits|e]; [|discriminate].
  went_on Q.
  assert (fst (get_commit_messages h) = Ok commits) as Hcommits by (rewrite E; reflexivity).
  clear E Hc Q t.
  (* the file changes *)
  shape_step. destruct o as [files|e].
  2:{ destruct (get_pull_request_files_returns h) as [v Hv]. rewrite E in Hv. discriminate. }
  went_on Q.
  assert (fst (get_pull_request_files h) = Ok files) as Hfiles by (rewrite E; reflexivity).
  clear E Q t.
  (* the prompt *)
  shape_step. unfold lift in E. injection E as <- <-.
  destruct files as [n|files].
  { cbn [construct_prompt]. eapply no_files; eassumption. }
  destruct (construct_prompt (pr_title pr) description commits (inr files)) as [p|e] eqn:Ep;
    [|discriminate].
  went_on Q. clear Q.
  assert (run_inputs h pr description commits files p) as Hin
    by (repeat split; assumption).
  (* the generation call and the comment *)
  unfold send_prompt_to_openai. fold (chat_request cfg (trim_prompt p)).
  rewrite bind_run, bind_emit.
  destruct (chat_completion h (chat_request cfg (trim_prompt p))) as [g|e] eqn:Eg;
    cbn [fst snd].
  - unfold print. rewrite bind_emit.
    unfold write_description_as_comment, requests_post.
    unfold bind, emit, ask, ret. cbn [fst snd app].
    pose proof (posted cfg h pr description commits files p g [] quiet_nil Hin Eg) as H.
    unfold post_report in H. cbn [app] in H.
    destruct (status_code _ =? codes_created); cbn [negb app] in *; exact H.
  - exact (generation_failed cfg h pr description commits files p e [] quiet_nil Hin Eg).
Qed.

Lemma quiet_post_report (h : Host) (body : string) : quiet (post_report h body).
Proof. unfold post_report. destruct (_ =? _); split; reflexivity. Qed.

Lemma calls_of_posted (h : Host) (pre : list event) (c p : event) (body : string) :
  quiet pre -> is_generation c = true -> is_generation p = false -> is_publish c = false ->
  is_publish p = false ->
  generation_calls (pre ++ c :: p :: Http (PostComment body) :: post_report h body) = [c] /\
  publish_calls (pre ++ c :: p :: Http (PostComment body) :: post_report h body)
  = [Http (PostComment body)].
Proof.
  intros [Hp Hg] Hc Hnp Hc' Hp'. destruct (quiet_post_report h body) as [Rp Rg].
  unfold generation_calls, publish_calls in *.
  rewrite !filter_app, Hp, Hg. cbn [filter app is_publish is_generation].
  rewrite Hc, Hnp, Hc', Hp', Rp, Rg. split; reflexivity.
Qed.

Lemma calls_of_failed (pre : list event) (c : event) :
  quiet pre -> is_generation c = true -> is_publish c = false ->
  generation_calls (pre ++ [c]) = [c] /\ publish_calls (pre ++ [c]) = [].
Proof.
  intros [Hp Hg] Hc Hc'. unfold generation_calls, publish_calls in *.
  rewrite !filter_app, Hp, Hg. cbn [filter app]. rewrite Hc, Hc'. split; reflexivity.
Qed.

Lemma run_inputs_unique (h : Host) (pr pr' : PullRequest) (d d' : string)
    (cm cm' : Z + string) (fs fs' : list FileChange) (p p' : string) :
  run_inputs h pr d cm fs p -> run_inputs h pr' d' cm' fs' p' ->
  pr = pr' /\ d = d' /\ cm = cm' /\ fs = fs' /\ p = p'.
Proof.
  intros (H1 & H2 & H3 & H4 & H5) (H1' & H2' & H3' & H4' & H5').
  rewrite H1 in H1'. injection H1' as <-.
  rewrite H2 in H2'. injection H2' as <-.
  rewrite H3 in H3'. injection H3' as <-.
  rewrite H4 in H4'. injection H4' as <-.
  rewrite H5 in H5'. injection H5' as <-.
  repeat split.
Qed.

(** The cases of [main_shape], read on [run]. *)
Ltac run_cases cfg h :=
  let Hshape := fresh "Hshape" in
  unfold run in *; pose proof (main_shape cfg h) as Hshape;
  let o := fresh "o" in
  let t := fresh "t" in
  destruct (main cfg h) as [o t]; cbn [fst snd] in *;
  inversion Hshape as [pre Hq H1 | pr_r e_r pre Hq H1 H2 | pr_r d_r n_r pre Hq H1 H2 H3
                      | pr_r d_r cm_r fs_r p_r e_r pre Hq Hin He
                      | pr_r d_r cm_r fs_r p_r g_r pre Hq Hin Hg];
  subst; cbn [exit_status] in *.

Ltac close_exit :=
  repeat split; cbn [List.length exit_status];
  try lia; try discriminate;
  try (intros [? ?]; discriminate);
  try (intros _; eexists; reflexivity).

(** X1. The exit status tells whether a comment was sent for posting, and
    nothing about whether it was created: a run ends with status 0 exactly
    when it made one POST request, and with status 1 exactly when it made
    none; it never makes more than one generation call. *)
Theorem exit_status_and_posting (cfg : Config) (h : Host) :
  (fst (run cfg h) = 0 <->
   exists body, publish_calls (snd (run cfg h)) = [Http (PostComment body)]) /\
  (fst (run cfg h) = 1 <-> publish_calls (snd (run cfg h)) = []) /\
  (List.length (generation_calls (snd (run cfg h))) <= 1)%nat.
Proof.
  run_cases cfg h.
  1-3: destruct Hq as [Hq1 Hq2]; rewrite Hq1, Hq2; close_exit.
  - destruct (calls_of_failed pre (ChatCompletion (chat_request cfg (trim_prompt p_r))) Hq
                eq_refl eq_refl) as [G P].
    rewrite G, P. close_exit.
  - match goal with
    | |- context [(pre ++ ?c :: ?l :: Http (PostComment ?b) :: _)%list] =>
        destruct (calls_of_posted h pre c l b Hq eq_refl eq_refl eq_refl eq_refl) as [G P]
    end.
    rewrite G, P. close_exit.
Qed.

(** X2. A run ends with status 0 exactly when the pull request was fetched,
    its body gave a description, the listing of file changes did not fail,
    and the generation call for the trimmed prompt answered. The status of
    the request for the commits, the allowed users, the comments already
    there and the status of the POST have no part in it. *)
Theorem exit_zero_iff (cfg : Config) (h : Host) :
  fst (run cfg h) = 0 <->
  exists pr description commits files p g,
    run_inputs h pr description commits files p /\
    chat_completion h (chat_request cfg (trim_prompt p)) = Ok g.
Proof.
  run_cases cfg h; (split; [try discriminate | intros (pr' & d' & cm' & fs' & p' & g' & Hin' & Hg')]).
  - destruct Hin' as (H' & _). rewrite H1 in H'. discriminate.
  - destruct Hin' as (H' & H2' & _). rewrite H1 in H'. injection H' as <-.
    rewrite H2 in H2'. discriminate.
  - destruct Hin' as (_ & _ & _ & H' & _). rewrite H3 in H'. discriminate.
  - destruct (run_inputs_unique _ _ _ _ _ _ _ _ _ _ _ Hin Hin') as (_ & _ & _ & _ & <-).
    rewrite He in Hg'. discriminate.
  - intros _. exists pr_r, d_r, cm_r, fs_r, p_r, g_r. split; assumption.
  - reflexivity.
Qed.

(** X3. With the pull request fetched, a description taken from its body,
    the file changes listed and an answer [g] from the generation call, the
    run makes that one generation call, prints the description between
    quotes, posts the title, two newlines and [g] as its last request and
    ends with status 0; the prompt is the head followed by the blocks of
    the file changes that carry a patch. *)
Theorem run_on_fetched_inputs (cfg : Config) (h : Host) (pr : PullRequest)
    (description : string) (commits : Z + string) (files : list FileChange)
    (p g : string) :
  run_inputs h pr description commits files p ->
  chat_completion h (chat_request cfg (trim_prompt p)) = Ok g ->
  p = prompt_head (pr_title pr) description commits
      ++ join_all (map block_of (filter carries_patch files)) /\
  fst (run cfg h) = 0 /\
  exists pre,
    quiet pre /\
    snd (run cfg h)
    = (pre ++ [ ChatCompletion (chat_request cfg (trim_prompt p));
                Print ("Generated pull request description: '"
                       ++ "# Auto-generated description:" ++ nl ++ nl ++ g ++ "'");
                Http (PostComment ("# Auto-generated description:" ++ nl ++ nl ++ g)) ]
           ++ post_report h ("# Auto-generated description:" ++ nl ++ nl ++ g))%list.
Proof.
  intros Hin' Hg'. split.
  { destruct Hin' as (_ & _ & _ & _ & Hp). unfold construct_prompt in Hp.
    rewrite fold_prompt_step in Hp. now injection Hp as <-. }
  run_cases cfg h.
  - destruct Hin' as (H' & _). rewrite H1 in H'. discriminate.
  - destruct Hin' as (H' & H2' & _). rewrite H1 in H'. injection H' as <-.
    rewrite H2 in H2'. discriminate.
  - destruct Hin' as (_ & _ & _ & H' & _). rewrite H3 in H'. discriminate.
  - destruct (run_inputs_unique _ _ _ _ _ _ _ _ _ _ _ Hin Hin') as (_ & _ & _ & _ & <-).
    rewrite He in Hg'. discriminate.
  - destruct (run_inputs_unique _ _ _ _ _ _ _ _ _ _ _ Hin Hin') as (_ & _ & _ & _ & <-).
    rewrite Hg in Hg'. injection Hg' as <-.
    split; [reflexivity|]. exists pre. split; [exact Hq | reflexivity].
Qed.

Lemma run_on_fetched_inputs_witness :
  sample_prompt
  = prompt_head "Enable X" "" (inr "add X")
    ++ join_all (map block_of (filter carries_patch (one_page 1))) /\
  fst (run sample_config (sample_host "octocat" one_page [])) = 0 /\
  exists pre,
    quiet pre /\
    snd (run sample_config (sample_host "octocat" one_page []))
    = (pre ++ [ ChatCompletion (chat_request sample_config (trim_prompt sample_prompt));
                Print ("Generated pull request description: '"
                       ++ "# Auto-generated description:" ++ nl ++ nl ++ "GENERATED" ++ "'");
                Http (PostComment ("# Auto-generated description:" ++ nl ++ nl ++ "GENERATED")) ]
           ++ post_report (sample_host "octocat" one_page [])
                ("# Auto-generated description:" ++ nl ++ nl ++ "GENERATED"))%list.
Proof.
  apply (run_on_fetched_inputs sample_config (sample_host "octocat" one_page [])
           {| pr_title := "Enable X"; pr_body := Some ""; pr_user_login := "octocat" |}
           "" (inr "add X") (one_page 1) sample_prompt "GENERATED").
  - repeat split; vm_compute; reflexivity.
  - reflexivity.
Defined.

Lemma generation_call_of_main (cfg : Config) (h : Host) (r : ChatRequest) :
  In (ChatCompletion r) (snd (run cfg h)) ->
  exists pr description commits files p,
    run_inputs h pr description commits files p /\
    r = chat_request cfg (trim_prompt p) /\
    (forall e, chat_completion h r = Raise e ->
       exists pre, quiet pre /\
                   main cfg h = (Raise e, (pre ++ [ChatCompletion r])%list)).
Proof.
  intros Hin0.
  assert (In (ChatCompletion r) (generation_calls (snd (run cfg h)))) as Hgen
    by (apply filter_In; split; [exact Hin0 | reflexivity]).
  clear Hin0. run_cases cfg h.
  1-3: destruct Hq as [_ Hq]; rewrite Hq in Hgen; contradiction.
  - destruct (calls_of_failed pre (ChatCompletion (chat_request cfg (trim_prompt p_r))) Hq
                eq_refl eq_refl) as [G _].
    rewrite G in Hgen. destruct Hgen as [[= <-]|[]].
    exists pr_r, d_r, cm_r, fs_r, p_r. repeat split; [apply Hin..|].
    intros e' He'. rewrite He in He'. injection He' as <-.
    exists pre. split; [exact Hq | reflexivity].
  - match type of Hgen with
    | context [(pre ++ ?c :: ?l :: Http (PostComment ?b) :: _)%list] =>
        destruct (calls_of_posted h pre c l b Hq eq_refl eq_refl eq_refl eq_refl) as [G _]
    end.
    rewrite G in Hgen. destruct Hgen as [[= <-]|[]].
    exists pr_r, d_r, cm_r, fs_r, p_r. repeat split; [apply Hin..|].
    intros e' He'. rewrite Hg in He'. discriminate.
Qed.

(** X4. When the generation call raises, the run ends there with that
    exception and exit status 1: the generation call is its last event and
    no comment is posted. *)
Theorem failed_generation_posts_nothing (cfg : Config) (h : Host)
    (r : ChatRequest) (e : exn) :
  In (ChatCompletion r) (snd (run cfg h)) ->
  chat_completion h r = Raise e ->
  fst (main cfg h) = Raise e /\
  fst (run cfg h) = 1 /\
  publish_calls (snd (run cfg h)) = [] /\
  exists pre, quiet pre /\ snd (run cfg h) = (pre ++ [ChatCompletion r])%list.
Proof.
  intros Hin He.
  destruct (generation_call_of_main cfg h r Hin) as (_ & _ & _ & _ & _ & _ & _ & Hstop).
  destruct (Hstop e He) as (pre & Hq & Hrun). unfold run. rewrite Hrun.
  cbn [fst snd exit_status]. repeat split.
  - apply (calls_of_failed pre (ChatCompletion r) Hq eq_refl eq_refl).
  - exists pre. split; [exact Hq | reflexivity].
Qed.

Lemma failed_generation_posts_nothing_witness :
  fst (main sample_config host_without_backend) = Raise OpenAIError /\
  fst (run sample_config host_without_backend) = 1 /\
  publish_calls (snd (run sample_config host_without_backend)) = [] /\
  exists pre,
    quiet pre /\
    snd (run sample_config host_without_backend)
    = (pre ++ [ChatCompletion (chat_request sample_config sample_prompt)])%list.
Proof.
  apply (failed_generation_posts_nothing sample_config host_without_backend
           (chat_request sample_config sample_prompt) OpenAIError).
  - find_event.
  - reflexivity.
Defined.

(** X5. Every generation call of a run carries the model, temperature and
    token limit of the configuration and four messages: the system line,
    the sample prompt as user, the sample response as assistant, and as
    user the prompt built from what the run fetched, cut to at most 8192
    characters (code points). *)
Theorem generation_request_of_run (cfg : Config) (h : Host) (r : ChatRequest) :
  In (ChatCompletion r) (snd (run cfg h)) ->
  exists pr description commits files p,
    run_inputs h pr description commits files p /\
    chat_messages r
    = [ (System, "You are a helpful assistant who writes pull request descriptions");
        (User, model_sample_prompt cfg);
        (Assistant, model_sample_response cfg);
        (User, trim_prompt p) ] /\
    char_len (trim_prompt p) <= 8192 /\
    chat_model r = open_ai_model cfg /\
    chat_temperature r = model_temperature cfg /\
    chat_max_tokens r = max_prompt_tokens cfg.
Proof.
  intros Hin.
  destruct (generation_call_of_main cfg h r Hin) as (pr & d & cm & fs & p & Hp & -> & _).
  exists pr, d, cm, fs, p. split; [exact Hp|]. repeat split.
  assert (0 <= 8192) as Hm by lia.
  destruct (keep_head p 8192 Hm) as (Hlen & _).
  change (char_len (trim_prompt p) = Z.min (char_len p) 8192) in Hlen. lia.
Qed.

Lemma generation_request_of_run_witness :
  exists pr description commits files p,
    run_inputs (sample_host "octocat" one_page []) pr description commits files p /\
    chat_messages (chat_request sample_config sample_prompt)
    = [ (System, "You are a helpful assistant who writes pull request descriptions");
        (User, model_sample_prompt sample_config);
        (Assistant, model_sample_response sample_config);
        (User, trim_prompt p) ] /\
    char_len (trim_prompt p) <= 8192 /\
    chat_model (chat_request sample_config sample_prompt) = open_ai_model sample_config /\
    chat_temperature (chat_request sample_config sample_prompt)
    = model_temperature sample_config /\
    chat_max_tokens (chat_request sample_config sample_prompt)
    = max_prompt_tokens sample_config.
Proof.
  apply (generation_request_of_run sample_config (sample_host "octocat" one_page [])).
  find_event.
Defined.

(** ** Runs that stop before the generation call *)

(** X6. When the request for the pull request fails, the run ends with a
    [TypeError] and exit status 1, with no generation call and no comment
    posted, whatever the allowed users are. *)
Theorem failed_pull_request_fetch (cfg : Config) (h : Host) :
  status_code (pull_request_result h) <> codes_ok ->
  fst (main cfg h) = Raise TypeError /\
  fst (run cfg h) = 1 /\
  generation_calls (snd (run cfg h)) = [] /\
  publish_calls (snd (run cfg h)) = [].
Proof.
  intros Hs. pose proof (get_pull_request_data_returns h) as Hd.
  destruct (status_code (pull_request_result h) =? codes_ok) eqn:E;
    [apply Z.eqb_eq in E; contradiction|].
  run_cases cfg h; try (rewrite H1 in Hd; discriminate);
    try (destruct Hin as (H1 & _); rewrite H1 in Hd; discriminate).
  repeat split; apply Hq.
Qed.

Lemma failed_pull_request_fetch_witness :
  fst (main restricted_config (host_with_pull_request 404 (Some ""))) = Raise TypeError /\
  fst (run restricted_config (host_with_pull_request 404 (Some ""))) = 1 /\
  generation_calls (snd (run restricted_config (host_with_pull_request 404 (Some "")))) = [] /\
  publish_calls (snd (run restricted_config (host_with_pull_request 404 (Some "")))) = [].
Proof.
  apply (failed_pull_request_fetch restricted_config (host_with_pull_request 404 (Some ""))).
  discriminate.
Defined.

(** X7. When the pull request is fetched and its body is [null], the run
    ends with an [AttributeError] and exit status 1, with no generation
    call and no comment posted. *)
Theorem null_body_stops_run (cfg : Config) (h : Host) :
  status_code (pull_request_result h) = codes_ok ->
  pr_body (text (pull_request_result h)) = None ->
  fst (main cfg h) = Raise AttributeError /\
  fst (run cfg h) = 1 /\
  generation_calls (snd (run cfg h)) = [] /\
  publish_calls (snd (run cfg h)) = [].
Proof.
  intros Hs Hb. pose proof (get_pull_request_data_returns h) as Hd.
  rewrite Hs in Hd. change (codes_ok =? codes_ok) with true in Hd. cbv iota in Hd.
  assert (get_current_pr_description (Some (text (pull_request_result h)))
          = Raise AttributeError) as Hnone.
  { unfold get_current_pr_description, subscript. rewrite Hb. reflexivity. }
  run_cases cfg h;
    try (destruct Hin as (H1 & H2 & _));
    rewrite H1 in Hd; try discriminate; injection Hd as ->;
    rewrite H2 in Hnone; try discriminate.
  injection Hnone as ->. repeat split; apply Hq.
Qed.

Lemma null_body_stops_run_witness :
  fst (main sample_config (host_with_pull_request 200 None)) = Raise AttributeError /\
  fst (run sample_config (host_with_pull_request 200 None)) = 1 /\
  generation_calls (snd (run sample_config (host_with_pull_request 200 None))) = [] /\
  publish_calls (snd (run sample_config (host_with_pull_request 200 None))) = [].
Proof.
  apply (null_body_stops_run sample_config (host_with_pull_request 200 None));
    reflexivity.
Defined.

(** X8. When [get_pull_request_files] returns [1], the run ends with an
    exception and exit status 1 before any generation call, and no comment
    is posted: the prompt cannot be built from [1]. *)
Theorem failed_file_listing_stops_run (cfg : Config) (h : Host) (n : Z) :
  fst (get_pull_request_files h) = Ok (inl n) ->
  (exists e, fst (main cfg h) = Raise e) /\
  fst (run cfg h) = 1 /\
  generation_calls (snd (run cfg h)) = [] /\
  publish_calls (snd (run cfg h)) = [].
Proof.
  intros Hf.
  run_cases cfg h;
    try (destruct Hin as (_ & _ & _ & H4 & _); rewrite H4 in Hf; discriminate);
    (split; [eexists; reflexivity | repeat split; apply Hq]).
Qed.

Lemma failed_file_listing_stops_run_witness :
  (exists e, fst (main sample_config host_failing_on_page_2) = Raise e) /\
  fst (run sample_config host_failing_on_page_2) = 1 /\
  generation_calls (snd (run sample_config host_failing_on_page_2)) = [] /\
  publish_calls (snd (run sample_config host_failing_on_page_2)) = [].
Proof.
  apply (failed_file_listing_stops_run sample_config host_failing_on_page_2 1).
  vm_compute. reflexivity.
Defined.

(** ** The two checks, on any host *)

Lemma comments_loop_returns (title : string) (comments : list Comment) (h : Host) :
  fst (comments_loop title comments h)
  = Ok (if existsb (fun c => contains title (comment_body c)) comments
        then Some 1 else None).
Proof.
  induction comments as [|c comments IH]; cbn [comments_loop existsb]; [reflexivity|].
  destruct (contains title (comment_body c)); [reflexivity | exact IH].
Qed.

(** X9. On any host [check_if_description_has_already_been_autogenerated]
    asks for the comments first, never raises and returns [1] or [None]:
    [1] when the request failed or the body of some comment contains the
    title, [None] when the comments were fetched and none contains it. A
    failed request and an earlier description give the same answer. *)
Theorem already_autogenerated_on_any_host (h : Host) (title : string) :
  exists v rest,
    check_if_description_has_already_been_autogenerated title h
    = (Ok v, Http GetComments :: rest) /\
    (v = Some 1 \/ v = None) /\
    (v = Some 1 <->
     status_code (comments_result h) <> codes_ok \/
     exists c, In c (text (comments_result h)) /\ occurs title (comment_body c)).
Proof.
  unfold check_if_description_has_already_been_autogenerated.
  rewrite bind_requests_get.
  destruct (status_code (comments_result h) =? codes_ok) eqn:Es; cbn [negb].
  - apply Z.eqb_eq in Es. rewrite bind_emit.
    pose proof (comments_loop_returns title (text (comments_result h)) h) as Hv.
    destruct (comments_loop title (text (comments_result h)) h) as [o t].
    cbn [fst] in Hv. subst o. eexists. eexists. split; [reflexivity|].
    destruct (existsb _ _) eqn:Ex.
    + split; [now left|]. split; [|reflexivity]. intros _. right.
      apply existsb_exists in Ex. destruct Ex as (c & Hin & Hc).
      exists c. split; [exact Hin | now apply PyStrFacts.contains_iff].
    + split; [now right|]. split; [discriminate|].
      intros [Hbad|(c & Hin & Hc)]; [contradiction|].
      assert (existsb (fun c => contains title (comment_body c)) (text (comments_result h))
              = true) as Ex'.
      { apply existsb_exists. exists c. split; [exact Hin|].
        now apply PyStrFacts.contains_iff. }
      congruence.
  - eexists. eexists. split; [reflexivity|]. split; [now left|].
    split; [|reflexivity]. intros _. left. intros Hok. rewrite Hok in Es. discriminate.
Qed.

Lemma mem_iff (x : string) (l : list string) : mem x l = true <-> In x l.
Proof.
  unfold mem. rewrite existsb_exists. split.
  - intros (y & Hy & E). apply String.eqb_eq in E. now subst y.
  - intros H. exists x. split; [exact H | apply String.eqb_refl].
Qed.

(** X10. With a pull request at hand,
    [check_pull_request_author_is_allowed_to_trigger_action] makes no
    request and never raises. It returns [None] and prints nothing when the
    list of allowed users is empty or holds the author's login, compared as
    whole strings; otherwise it prints one line naming the author and
    returns [0]. Neither [None] nor [0] is a true value. *)
Theorem author_check_outcomes (pr : PullRequest) (allowed_users : list string) (h : Host) :
  (allowed_users = [] \/ In (pr_user_login pr) allowed_users ->
   check_pull_request_author_is_allowed_to_trigger_action (Some pr) allowed_users h
   = (Ok None, [])) /\
  (allowed_users <> [] -> ~ In (pr_user_login pr) allowed_users ->
   check_pull_request_author_is_allowed_to_trigger_action (Some pr) allowed_users h
   = (Ok (Some 0),
      [Print ("Pull request author " ++ pr_user_login pr
              ++ " is not allowed to trigger this action")])) /\
  (forall v,
     fst (check_pull_request_author_is_allowed_to_trigger_action (Some pr) allowed_users h)
     = Ok v -> truthy v = false).
Proof.
  unfold check_pull_request_author_is_allowed_to_trigger_action.
  destruct allowed_users as [|u l].
  - repeat split; [contradiction | intros v [= <-]; reflexivity].
  - unfold bind, lift, subscript.
    destruct (mem (pr_user_login pr) (u :: l)) eqn:Em; cbn [negb fst snd app].
    + apply mem_iff in Em. repeat split.
      * intros _ Hn. contradiction.
      * intros v [= <-]. reflexivity.
    + assert (~ In (pr_user_login pr) (u :: l)) as Hn.
      { intros Hin. apply mem_iff in Hin. congruence. }
      repeat split.
      * intros [Hnil|Hin]; [discriminate | contradiction].
      * intros v [= <-]. reflexivity.
Qed.

Lemma author_check_outcomes_witness :
  check_pull_request_author_is_allowed_to_trigger_action
    (Some {| pr_title := "Enable X"; pr_body := Some ""; pr_user_login := "bob" |})
    ["alice"; " bob"] (sample_host "bob" one_page [])
  = (Ok (Some 0), [Print "Pull request author bob is not allowed to trigger this action"]).
Proof.
  apply (author_check_outcomes
           {| pr_title := "Enable X"; pr_body := Some ""; pr_user_login := "bob" |}
           ["alice"; " bob"] (sample_host "bob" one_page [])).
  - discriminate.
  - intros [H|[H|[]]]; discriminate.
Defined.

(** ** The list of allowed users *)

Lemma split_not_nil (sep : ascii) (s : string) : split sep s <> [].
Proof.
  destruct s as [|c s]; simpl; [discriminate|].
  destruct (Ascii.eqb c sep); [discriminate|].
  destruct (split sep s); discriminate.
Qed.

Lemma concat_cons (sep x : string) (l : list string) :
  l <> [] -> String.concat sep (x :: l) = x ++ sep ++ String.concat sep l.
Proof. destruct l; [contradiction | reflexivity]. Qed.

Lemma concat_split (sep : ascii) (s : string) :
  String.concat (String sep "") (split sep s) = s.
Proof.
  induction s as [|c s IH]; [reflexivity|]. cbn [split].
  destruct (Ascii.eqb c sep) eqn:E.
  - apply Ascii.eqb_eq in E. subst c.
    rewrite concat_cons by apply split_not_nil. rewrite IH. reflexivity.
  - pose proof (split_not_nil sep s) as Hne.
    destruct (split sep s) as [|w ws]; [contradiction|].
    destruct ws as [|w' ws].
    + cbn in *. now rewrite IH.
    + rewrite concat_cons in * by discriminate.
      cbn [String.append] in *. now rewrite IH.
Qed.

Lemma contains_char (sep c : ascii) (w : string) :
  contains (String sep "") (String c w)
  = (Ascii.eqb sep c || contains (String sep "") w)%bool.
Proof.
  rewrite PyStrFacts.contains_eq. cbn [String.prefix].
  destruct (ascii_dec sep c) as [->|Hn].
  - rewrite Ascii.eqb_refl. destruct w; reflexivity.
  - apply Ascii.eqb_neq in Hn. rewrite Hn. reflexivity.
Qed.

Lemma split_fields (sep : ascii) (s : string) :
  Forall (fun w => contains (String sep "") w = false) (split sep s).
Proof.
  induction s as [|c s IH]; cbn [split].
  - constructor; [reflexivity | constructor].
  - destruct (Ascii.eqb c sep) eqn:E.
    + constructor; [reflexivity | exact IH].
    + pose proof (split_not_nil sep s) as Hne.
      destruct (split sep s) as [|w ws]; [contradiction|].
      inversion IH as [|? ? Hw Hws]; subst. constructor; [|exact Hws].
      rewrite contains_char, Hw, Ascii.eqb_sym, E. reflexivity.
Qed.

(** X11. The allowed users are the fields of [INPUT_ALLOWED_USERS] between
    its commas, kept as they are: joined with commas they give the variable
    back, no field contains a comma, and the list is empty exactly when the
    variable is empty. *)
Theorem allowed_users_of_fields (env : string) :
  String.concat "," (allowed_users_of env) = env /\
  (forall u, In u (allowed_users_of env) -> ~ occurs "," u) /\
  (allowed_users_of env = [] <-> env = "").
Proof.
  unfold allowed_users_of. destruct (String.eqb env "") eqn:E.
  - apply String.eqb_eq in E. subst env. repeat split; contradiction.
  - apply String.eqb_neq in E. split; [apply concat_split|]. split.
    + intros u Hu Hocc. apply PyStrFacts.contains_iff in Hocc.
      pose proof (split_fields "," env) as Hf.
      rewrite Forall_forall in Hf. rewrite (Hf u Hu) in Hocc. discriminate.
    + split; [intros H; now apply split_not_nil in H | contradiction].
Qed.

(** ** The description taken from the body *)

Lemma occurs_at_app_l (sub a b : string) (k : nat) :
  occurs_at sub a k -> occurs_at sub (a ++ b) k.
Proof.
  intros (pre & post & -> & Hl). exists pre, (post ++ b). split; [|exact Hl].
  now rewrite !PyStrFacts.app_assoc.
Qed.

Lemma drop_length (s : string) (n : nat) :
  (n <= String.length s)%nat -> String.length (drop n s) = (String.length s - n)%nat.
Proof.
  revert s. induction n as [|n IH]; intros s Hn.
  - destruct s; simpl; lia.
  - destruct s as [|c s]; simpl in *; [lia | apply IH; lia].
Qed.

(** A string that starts with the marker: a ['#'] after its first character
    is at index 13 or later, and what is cut there still starts with the
    marker. *)
Lemma marker_section (post : string) (m : nat) :
  (1 <= m)%nat ->
  occurs_at "#" ("# Description" ++ post) m ->
  String.prefix "# Description" (String.substring 0 m ("# Description" ++ post)) = true.
Proof.
  intros Hm Hocc. cbn [String.append] in *.
  do 13 (destruct m as [|m];
         [try lia;
          exfalso; repeat (apply PyStrFacts.occurs_at_S in Hocc);
          apply PyStrFacts.occurs_at_0 in Hocc; cbn in Hocc; discriminate|]).
  cbn. destruct (String.substring 0 m post); reflexivity.
Qed.

Lemma description_cases (pr : PullRequest) (body : string) :
  pr_body pr = Some body ->
  exists d,
    get_current_pr_description (Some pr) = Ok d /\
    (d = body \/
     exists before after,
       body = before ++ d ++ after /\
       String.prefix "# Description" d = true /\
       no_occurrence_from "#" d 1).
Proof.
  intros Hb. unfold get_current_pr_description, subscript. rewrite Hb.
  destruct (PyStrFacts.find_range body "# Description" 0) as [E|[i E]];
    change (Z.of_nat 0) with 0 in E; rewrite E.
  { exists body. split; [reflexivity | now left]. }
  destruct (Z.of_nat i =? -1) eqn:Ei; [apply Z.eqb_eq in Ei; lia|].
  replace (Z.of_nat i + 1) with (Z.of_nat (S i)) by lia.
  destruct (PyStrFacts.find_range body "#" (S i)) as [E'|[j E']]; rewrite E'.
  { exists body. split; [reflexivity | now left]. }
  destruct (Z.of_nat j =? -1) eqn:Ej; [apply Z.eqb_eq in Ej; lia|].
  apply (PyStrFacts.find_found body "# Description" 0 i) in E.
  apply PyStrFacts.find_found in E'.
  destruct E as (_ & Oi & _). destruct E' as (Hij & Oj & Hmin).
  pose proof (PyStrFacts.occurs_at_bound _ _ _ Oj) as Hj. cbn [String.length] in Hj.
  eexists. split; [reflexivity|]. right.
  rewrite SliceFacts.slice_inside by lia. rewrite SliceFacts.substring_drop.
  (* the body from the marker on *)
  destruct Oi as (pre & post & Hbody & Hpre).
  assert (drop i body = "# Description" ++ post) as Hs.
  { subst body i. clear. induction pre as [|c pre IH]; [|exact IH].
    destruct ("# Description" ++ post); reflexivity. }
  assert (occurs_at "#" (drop i body) (j - i)) as Om.
  { apply PyStrFacts.occurs_at_drop; [lia|]. now replace (i + (j - i))%nat with j by lia. }
  exists (String.substring 0 i body), (drop (j - i) (drop i body)).
  split; [|split].
  - rewrite <- SliceFacts.substring_0_drop. rewrite SliceFacts.substring_drop.
    now rewrite <- SliceFacts.substring_0_drop.
  - rewrite Hs in *. apply marker_section; [lia | exact Om].
  - intros k Hk Ok.
    pose proof (PyStrFacts.occurs_at_bound _ _ _ Ok) as Hkb.
    rewrite SliceFacts.substring_0_length in Hkb. cbn [String.length] in Hkb.
    apply (occurs_at_app_l _ _ (drop (j - i) (drop i body))) in Ok.
    rewrite <- SliceFacts.substring_0_drop in Ok.
    apply PyStrFacts.occurs_at_drop in Ok; [|lia].
    apply (Hmin (i + k)%nat); [lia | exact Ok].
Qed.

(** X12. With a body that is a string, [get_current_pr_description] returns
    a piece of the body, cut out in one stretch: the whole body, or a piece
    that starts with ["# Description"] and has no ['#'] after its first
    character. *)
Theorem description_is_part_of_body (pr : PullRequest) (body : string) :
  pr_body pr = Some body ->
  exists d before after,
    get_current_pr_description (Some pr) = Ok d /\
    body = before ++ d ++ after /\
    (d = body \/
     String.prefix "# Description" d = true /\ no_occurrence_from "#" d 1).
Proof.
  intros Hb. destruct (description_cases pr body Hb) as (d & Hd & [->|H]).
  - exists body, "", "". split; [exact Hd|]. split; [|now left].
    cbn. now rewrite PyStrFacts.app_empty_r.
  - destruct H as (before & after & H1 & H2 & H3).
    exists d, before, after. split; [exact Hd|]. split; [exact H1|]. right. now split.
Qed.

Lemma description_is_part_of_body_witness :
  exists d before after,
    get_current_pr_description
      (Some (pr_with_body (Some "intro # Description body text # Footer"))) = Ok d /\
    "intro # Description body text # Footer" = before ++ d ++ after /\
    (d = "intro # Description body text # Footer" \/
     String.prefix "# Description" d = true /\ no_occurrence_from "#" d 1).
Proof.
  apply (description_is_part_of_body
           (pr_with_body (Some "intro # Description body text # Footer"))).
  reflexivity.
Defined.

(** X13. Taking the description is idempotent: from a body that is the
    description taken from some body, [get_current_pr_description] returns
    that body unchanged. *)
Theorem description_idempotent (pr pr' : PullRequest) (body d : string) :
  pr_body pr = Some body ->
  get_current_pr_description (Some pr) = Ok d ->
  pr_body pr' = Some d ->
  get_current_pr_description (Some pr') = Ok d.
Proof.
  intros Hb Hd Hb'.
  destruct (description_cases pr body Hb) as (d0 & Hd0 & Hcase).
  rewrite Hd in Hd0. injection Hd0 as <-.
  destruct Hcase as [->|(before & after & _ & Hpre & Hnone)].
  - unfold get_current_pr_description, subscript in *. rewrite Hb in Hd.
    rewrite Hb'. exact Hd.
  - unfold get_current_pr_description, subscript. rewrite Hb'.
    assert (first_occurrence_from "# Description" d 0 0) as Hfirst.
    { repeat split; [lia | now apply PyStrFacts.occurs_at_0 | intros j Hj; lia]. }
    apply PyStrFacts.find_first in Hfirst. change (Z.of_nat 0) with 0 in Hfirst.
    rewrite Hfirst. change (0 =? -1) with false. cbv iota.
    apply PyStrFacts.find_none in Hnone. change (Z.of_nat 1) with (0 + 1) in Hnone.
    rewrite Hnone. reflexivity.
Qed.

Lemma description_idempotent_witness :
  get_current_pr_description (Some (pr_with_body (Some "# Description body text ")))
  = Ok "# Description body text ".
Proof.
  apply (description_idempotent
           (pr_with_body (Some "intro # Description body text # Footer"))
           (pr_with_body (Some "# Description body text "))
           "intro # Description body text # Footer");
    reflexivity.
Defined.

(** ** Trimming and the prompt *)

Lemma starts_char_count (q : string) :
  starts_char q -> char_count q = 0%nat -> q = "".
Proof.
  destruct q as [|c q]; [reflexivity|]. cbn. intros ->. discriminate.
Qed.

Lemma keep_head_app (p q : string) (m : Z) :
  0 <= m -> char_len p >= m -> starts_char q ->
  (if char_len (p ++ q) >? m then head_chars (p ++ q) m else p ++ q)
  = (if char_len p >? m then head_chars p m else p).
Proof.
  intros Hm Hp Hq. unfold char_len, head_chars in *.
  rewrite CharFacts.char_count_app.
  assert (take_chars (Z.to_nat m) p = if Z.of_nat (char_count p) >? m
                                      then take_chars (Z.to_nat m) p else p) as Hcut.
  { destruct (Z.of_nat (char_count p) >? m) eqn:E; [reflexivity|].
    apply CharFacts.take_chars_all.
    destruct (Z.gtb_spec (Z.of_nat (char_count p)) m); [discriminate | lia]. }
  rewrite <- Hcut.
  destruct (Z.of_nat (char_count p + char_count q) >? m) eqn:E.
  - apply CharFacts.take_chars_app; [lia | exact Hq].
  - assert (char_count q = 0%nat) as Hz.
    { destruct (Z.gtb_spec (Z.of_nat (char_count p + char_count q)) m);
        [discriminate | lia]. }
    rewrite (starts_char_count q Hq Hz), PyStrFacts.app_empty_r.
    symmetry. apply CharFacts.take_chars_all.
    destruct (Z.gtb_spec (Z.of_nat (char_count p + char_count q)) m);
      [discriminate | lia].
Qed.

Lemma trim_prompt_over_budget (p q : string) :
  char_len p >= 8192 -> starts_char q -> trim_prompt (p ++ q) = trim_prompt p.
Proof.
  intros Hp Hq. assert (0 <= 8192) as Hm by lia.
  exact (keep_head_app p q 8192 Hm Hp Hq).
Qed.

Lemma starts_char_blocks (files : list FileChange) :
  starts_char (join_all (map block_of (filter carries_patch files))).
Proof.
  induction files as [|f files IH]; [exact I|]. cbn [filter].
  unfold carries_patch at 1. destruct (patch f) as [x|] eqn:E; [|exact IH].
  cbn [map join_all fold_right]. unfold block_of. rewrite E. reflexivity.
Qed.

(** X14. Trimming is idempotent, and text that follows a prompt of 8192
    characters or more has no effect on the trimmed prompt. The text that
    follows begins a character, as every [str] does. *)
Theorem trim_prompt_stable (p q : string) :
  trim_prompt (trim_prompt p) = trim_prompt p /\
  (char_len p >= 8192 -> starts_char q -> trim_prompt (p ++ q) = trim_prompt p).
Proof.
  split; [|apply trim_prompt_over_budget].
  assert (0 <= 8192) as Hm by lia.
  destruct (keep_head p 8192 Hm) as (Hlen & _).
  destruct (keep_head (trim_prompt p) 8192 Hm) as (_ & _ & _ & Hkeep).
  apply Hkeep.
  change (char_len (trim_prompt p) = Z.min (char_len p) 8192) in Hlen. lia.
Qed.

Lemma trim_prompt_stable_witness :
  trim_prompt (trim_prompt long_prompt) = trim_prompt long_prompt /\
  trim_prompt (long_prompt ++ "Changes in file a.yml: ") = trim_prompt long_prompt /\
  trim_prompt ((accented_prompt ++ accented_prompt) ++ "Changes in file a.yml: ")
  = trim_prompt (accented_prompt ++ accented_prompt).
Proof.
  destruct (trim_prompt_stable long_prompt "Changes in file a.yml: ") as [H1 H2].
  split; [exact H1|]. split.
  - apply H2; [vm_compute; discriminate | reflexivity].
  - apply (proj2 (trim_prompt_stable (accented_prompt ++ accented_prompt)
                    "Changes in file a.yml: "));
      [vm_compute; discriminate | reflexivity].
Defined.

(** X15. Once the prompt built from the first file changes has reached
    8192 characters (code points), the file changes after them do not
    reach the generation call: the trimmed prompt is the same with and
    without them. *)
Theorem file_changes_past_budget_are_cut (title description : string)
    (commits : Z + string) (files more : list FileChange) (p p' : string) :
  construct_prompt title description commits (inr files) = Ok p ->
  char_len p >= 8192 ->
  construct_prompt title description commits (inr (files ++ more)%list) = Ok p' ->
  trim_prompt p' = trim_prompt p.
Proof.
  unfold construct_prompt. intros [= <-] Hlen [= <-].
  rewrite fold_left_app.
  rewrite (fold_prompt_step more).
  apply trim_prompt_over_budget; [exact Hlen | apply starts_char_blocks].
Qed.

Lemma file_changes_past_budget_are_cut_witness :
  exists p p',
    construct_prompt "Enable X" "" (inr "add X") (inr [large_file]) = Ok p /\
    construct_prompt "Enable X" "" (inr "add X")
      (inr [large_file; {| filename := "a.yml"; patch := Some "+line" |}]) = Ok p' /\
    trim_prompt p' = trim_prompt p.
Proof.
  eexists. eexists. split; [reflexivity|]. split; [reflexivity|].
  eapply (file_changes_past_budget_are_cut "Enable X" "" (inr "add X") [large_file]
            [ {| filename := "a.yml"; patch := Some "+line" |} ]).
  - reflexivity.
  - vm_compute. discriminate.
  - reflexivity.
Defined.

Lemma occurs_refl (s : string) : occurs s s.
Proof.
  exists 0%nat, "", "". split; [|reflexivity]. cbn. now rewrite PyStrFacts.app_empty_r.
Qed.

Lemma occurs_app_l (sub a b : string) : occurs sub a -> occurs sub (a ++ b).
Proof. intros [k Hk]. exists k. now apply occurs_at_app_l. Qed.

Lemma occurs_app_r (sub a b : string) : occurs sub b -> occurs sub (a ++ b).
Proof.
  intros (k & pre & post & -> & Hl). exists (String.length (a ++ pre)), (a ++ pre), post.
  split; [|reflexivity]. now rewrite !PyStrFacts.app_assoc.
Qed.

Lemma occurs_join_all (sub x : string) (l : list string) :
  In x l -> occurs sub x -> occurs sub (join_all l).
Proof.
  induction l as [|y l IH]; [contradiction|]. cbn [join_all fold_right].
  intros [->|Hin] Hs.
  - now apply occurs_app_l.
  - apply occurs_app_r. now apply IH.
Qed.

Ltac occurs_here :=
  repeat first [ apply occurs_refl
               | apply occurs_app_l; apply occurs_refl
               | apply occurs_app_r ].

(** X16. Before trimming, nothing given to [construct_prompt] is lost: the
    prompt contains the title, the description, the commit messages, and
    the file name and the patch of every file change that carries a
    patch. *)
Theorem construct_prompt_keeps_inputs (title description : string)
    (commits : Z + string) (files : list FileChange) (p : string) :
  construct_prompt title description commits (inr files) = Ok p ->
  occurs title p /\
  occurs description p /\
  occurs (format_commit_messages commits) p /\
  (forall f x, In f files -> patch f = Some x ->
     occurs (filename f) p /\ occurs x p).
Proof.
  unfold construct_prompt. intros [= <-]. rewrite fold_prompt_step.
  split; [|split; [|split]].
  - apply occurs_app_l. unfold prompt_head. occurs_here.
  - apply occurs_app_l. unfold prompt_head. occurs_here.
  - apply occurs_app_l. unfold prompt_head. occurs_here.
  - intros f x Hin Hx.
    assert (In (block_of f) (map block_of (filter carries_patch files))) as Hblock.
    { apply in_map, filter_In. split; [exact Hin|]. unfold carries_patch. now rewrite Hx. }
    split; apply occurs_app_r; apply (occurs_join_all _ (block_of f) _ Hblock);
      unfold block_of; rewrite Hx; occurs_here.
Qed.

Lemma construct_prompt_keeps_inputs_witness :
  occurs "Enable X" sample_prompt /\
  occurs "" sample_prompt /\
  occurs "add X" sample_prompt /\
  (forall f x, In f (one_page 1) -> patch f = Some x ->
     occurs (filename f) sample_prompt /\ occurs x sample_prompt).
Proof.
  apply (construct_prompt_keeps_inputs "Enable X" "" (inr "add X") (one_page 1) sample_prompt).
  reflexivity.
Defined.

(** ** The order of the requests *)

Lemma requests_of_app (t1 t2 : list event) :
  requests_of (t1 ++ t2) = (requests_of t1 ++ requests_of t2)%list.
Proof. apply flat_map_app. Qed.

Lemma requests_of_get_pull_request_data (h : Host) :
  requests_of (snd (get_pull_request_data h)) = [GetPull].
Proof.
  unfold get_pull_request_data. rewrite bind_requests_get.
  destruct (negb _); reflexivity.
Qed.

Lemma requests_of_check_author (d : option PullRequest) (allowed_users : list string)
    (h : Host) :
  requests_of (snd (check_pull_request_author_is_allowed_to_trigger_action d allowed_users h))
  = [].
Proof.
  unfold check_pull_request_author_is_allowed_to_trigger_action.
  destruct allowed_users; [reflexivity|]. destruct d as [d|]; [|reflexivity].
  unfold bind, lift, subscript. destruct (negb _); reflexivity.
Qed.

Lemma requests_of_comments_loop (title : string) (comments : list Comment) (h : Host) :
  requests_of (snd (comments_loop title comments h)) = [].
Proof.
  induction comments as [|c comments IH]; cbn [comments_loop]; [reflexivity|].
  destruct (contains _ _); [reflexivity | exact IH].
Qed.

Lemma requests_of_check_autogenerated (title : string) (h : Host) :
  requests_of (snd (check_if_description_has_already_been_autogenerated title h))
  = [GetComments].
Proof.
  unfold check_if_description_has_already_been_autogenerated.
  rewrite bind_requests_get. destruct (negb _); [reflexivity|].
  rewrite bind_emit.
  pose proof (requests_of_comments_loop title (text (comments_result h)) h) as H.
  destruct (comments_loop _ _ h) as [o t]. cbn [snd] in *.
  unfold requests_of in *. cbn [flat_map app]. now rewrite H.
Qed.

Lemma requests_of_get_commit_messages (h : Host) :
  requests_of (snd (get_commit_messages h)) = [GetCommits].
Proof.
  unfold get_commit_messages. rewrite bind_requests_get.
  destruct (negb _); reflexivity.
Qed.

Lemma requests_of_file_requests (nums : list Z) :
  requests_of (map (fun n => Http (GetFiles n 30)) nums)
  = map (fun n => GetFiles n 30) nums.
Proof. induction nums as [|n nums IH]; [reflexivity|]. cbn. now f_equal. Qed.

Lemma requests_of_get_pull_request_files (h : Host) :
  exists k, (1 <= k <= 10)%nat /\
    requests_of (snd (get_pull_request_files h))
    = map (fun n => GetFiles n 30) (firstn k (range 1 11)).
Proof.
  unfold get_pull_request_files.
  destruct (files_loop_cases h (range 1 11) ltac:(discriminate) [])
    as (k & Hk & [E|(n & _ & _ & E)]); rewrite E; exists k; (split; [exact Hk|]);
    cbn [snd]; rewrite ?requests_of_app, requests_of_file_requests.
  - reflexivity.
  - cbn. now rewrite app_nil_r.
Qed.

Ltac stops_here :=
  exists EmptyString; eexists;
  rewrite ?requests_of_app;
  repeat match goal with
         | H : requests_of _ = _ |- _ => rewrite H; clear H
         end;
  rewrite <- ?app_assoc; cbn [app requests_of flat_map]; reflexivity.

Ltac next_requests R :=
  rewrite bind_run;
  match goal with
  | |- context [match ?m ?h with _ => _ end] =>
      pose proof R;
      let o := fresh "o" in
      let t := fresh "t" in
      destruct (m h) as [[o|?] t]; cbn [fst snd] in *; [|stops_here]
  end.

(** X17. The requests of a run come in one fixed order, each at most once:
    the pull request, the comments, the commits, pages 1 to k of the file
    changes for some k from 1 to 10, then the POST of the comment. A run
    that stops early has made the first requests of this list and none of
    the later ones. *)
Theorem requests_in_order (cfg : Config) (h : Host) :
  exists k, (1 <= k <= 10)%nat /\
  exists body rest,
    (requests_of (snd (run cfg h)) ++ rest)%list
    = ([GetPull; GetComments; GetCommits]
       ++ map (fun n => GetFiles n 30) (firstn k (range 1 11))
       ++ [PostComment body])%list.
Proof.
  destruct (requests_of_get_pull_request_files h) as (k & Hk & Rfiles).
  exists k. split; [exact Hk|]. unfold run.
  destruct (main cfg h) as [r t0] eqn:Emain. cbn [snd].
  replace t0 with (snd (main cfg h)) by (rewrite Emain; reflexivity).
  clear Emain r t0. unfold main.
  next_requests (requests_of_get_pull_request_data h).
  next_requests (requests_of_check_author o (allowed_users_of (INPUT_ALLOWED_USERS cfg)) h).
  next_requests (requests_of_check_autogenerated autogenerated_title h).
  next_requests (eq_refl : requests_of (snd (lift (subscript o pr_title) h)) = []).
  next_requests (eq_refl : requests_of (snd (lift (get_current_pr_description o) h)) = []).
  next_requests (requests_of_get_commit_messages h).
  next_requests Rfiles.
  match goal with
  | |- context [lift ?c] =>
      next_requests (eq_refl : requests_of (snd (lift c h)) = [])
  end.
  unfold send_prompt_to_openai.
  match goal with |- context [ChatCompletion ?x] => set (r := x) end.
  rewrite bind_run, bind_emit.
  destruct (chat_completion h r) as [g|e]; cbn [fst snd]; [|stops_here].
  exists (add_title_to_description autogenerated_title g).
  unfold print. rewrite bind_emit.
  unfold write_description_as_comment, requests_post.
  unfold bind, emit, ask, ret. cbn [fst snd app].
  destruct (negb _); exists [];
    rewrite ?requests_of_app;
    repeat match goal with
           | H : requests_of _ = _ |- _ => rewrite H; clear H
           end;
    rewrite <- ?app_assoc; cbn [app requests_of flat_map]; reflexivity.
Qed.
